(** * Optimization models: factory planning 2, food manufacture 1, manpower planning

    A shallow embedding of the three OR-Tools scripts of the repository.
    Each script fills data tables, registers decision variables with a
    solver object, adds linear constraints, sets one objective, calls the
    solver once and prints a report.

    Numbers: the scripts hand Python ints and floats to the solver.  Here
    every coefficient is the rational number that the source literal
    denotes ([0.05] is 5/100), and an assignment gives a rational value
    to every variable; rounding of machine floats is not modelled. *)

From Stdlib Require Import QArith Lqa ZArith.
From stdpp Require Import base option list strings gmap pretty.

#[local] Open Scope Q_scope.

(** ** Linear expressions and constraints *)

(** Modelled from the spec: the solver library is an external
    collaborator (section 6).  A variable handle is the index of the
    variable in the solver; Python's overloaded [+], [-], [*] on handles and
    numbers build the expression tree below. *)
Inductive LinearExpr : Type :=
| EVar (h : nat)
| EConst (c : Q)
| EAdd (e1 e2 : LinearExpr)
| ESub (e1 e2 : LinearExpr)
| EMul (c : Q) (e : LinearExpr).

(** [model.Sum(es)]: the sum of a sequence of expressions. *)
Definition Sum (es : list LinearExpr) : LinearExpr :=
  foldr EAdd (EConst 0) es.

Definition assignment : Type := nat → Q.

(** Value of an expression under an assignment of values to handles. *)
Fixpoint solution_value (a : assignment) (e : LinearExpr) : Q :=
  match e with
  | EVar h => a h
  | EConst c => c
  | EAdd e1 e2 => solution_value a e1 + solution_value a e2
  | ESub e1 e2 => solution_value a e1 - solution_value a e2
  | EMul c e' => c * solution_value a e'
  end.

(** Handles that occur in an expression, left to right. *)
Fixpoint handles (e : LinearExpr) : list nat :=
  match e with
  | EVar h => [h]
  | EConst _ => []
  | EAdd e1 e2 | ESub e1 e2 => handles e1 ++ handles e2
  | EMul _ e' => handles e'
  end.

(** The constant part of an expression: its value when every variable
    is zero. *)
Definition constant_part (e : LinearExpr) : Q :=
  solution_value (λ _, 0) e.

(** Coefficient of handle [h]: the value at the unit assignment of [h]
    minus the constant part. *)
Definition coefficient (h : nat) (e : LinearExpr) : Q :=
  solution_value (λ i, if Nat.eqb i h then 1 else 0) e - constant_part e.

Inductive Relation : Type := EQ | LE | GE.

(** [lhs == rhs], [lhs <= rhs], [lhs >= rhs] on expressions. *)
Record LinearConstraint : Type := Constraint {
  c_lhs : LinearExpr;
  c_rel : Relation;
  c_rhs : LinearExpr
}.

Definition holds (a : assignment) (c : LinearConstraint) : Prop :=
  match c_rel c with
  | EQ => solution_value a (c_lhs c) == solution_value a (c_rhs c)
  | LE => solution_value a (c_lhs c) <= solution_value a (c_rhs c)
  | GE => solution_value a (c_rhs c) <= solution_value a (c_lhs c)
  end.

Definition holdsb (a : assignment) (c : LinearConstraint) : bool :=
  match c_rel c with
  | EQ => Qeq_bool (solution_value a (c_lhs c)) (solution_value a (c_rhs c))
  | LE => Qle_bool (solution_value a (c_lhs c)) (solution_value a (c_rhs c))
  | GE => Qle_bool (solution_value a (c_rhs c)) (solution_value a (c_lhs c))
  end.

(** Handles on either side of a constraint. *)
Definition constraint_handles (c : LinearConstraint) : list nat :=
  handles (c_lhs c) ++ handles (c_rhs c).

(** ** The solver object *)

Inductive ProblemType : Type :=
| CBC_MIXED_INTEGER_PROGRAMMING
| GLOP_LINEAR_PROGRAMMING.

Record MPVariable : Type := MkVariable {
  v_lb : Q;
  v_ub : Q;
  v_integer : bool;
  v_name : string
}.

Inductive Direction : Type := MAXIMIZE | MINIMIZE.

Record Solver : Type := MkSolver {
  s_name : string;
  s_type : ProblemType;
  s_variables : list MPVariable;
  s_constraints : list LinearConstraint;
  s_objective : option (Direction * LinearExpr)
}.

(** [pywraplp.Solver(name, problem_type)] *)
Definition new_Solver (name : string) (t : ProblemType) : Solver :=
  MkSolver name t [] [] None.

(** A script is a sequence of statements over the global [model]; [None]
    is an uncaught exception (a [KeyError], [ValueError] or [IndexError]
    of a table lookup), which ends the run. *)
Definition M (A : Type) : Type := Solver → option (A * Solver).

#[global] Instance M_ret : MRet M := λ A x s, Some (x, s).
#[global] Instance M_bind : MBind M := λ A B f m s,
  match m s with
  | Some (x, s') => f x s'
  | None => None
  end.

Definition lift {A} (o : option A) : M A :=
  λ s, match o with Some x => Some (x, s) | None => None end.

Definition add_variable (v : MPVariable) : M nat := λ s,
  Some (length (s_variables s),
        MkSolver (s_name s) (s_type s) (s_variables s ++ [v])
                 (s_constraints s) (s_objective s)).

(** [model.NumVar(lb, ub, name)] and [model.IntVar(lb, ub, name)] *)
Definition NumVar (lb ub : Q) (name : string) : M nat :=
  add_variable (MkVariable lb ub false name).
Definition IntVar (lb ub : Q) (name : string) : M nat :=
  add_variable (MkVariable lb ub true name).

(** [model.Add(constraint)] *)
Definition Add (c : LinearConstraint) : M () := λ s,
  Some ((), MkSolver (s_name s) (s_type s) (s_variables s)
                     (s_constraints s ++ [c]) (s_objective s)).

Definition set_objective (d : Direction) (e : LinearExpr) : M () := λ s,
  Some ((), MkSolver (s_name s) (s_type s) (s_variables s)
                     (s_constraints s) (Some (d, e))).

(** [model.Maximize(e)] and [model.Minimize(e)] *)
Definition Maximize : LinearExpr → M () := set_objective MAXIMIZE.
Definition Minimize : LinearExpr → M () := set_objective MINIMIZE.

(** [model.NumVariables()] and [model.NumConstraints()] *)
Definition NumVariables (s : Solver) : Z := Z.of_nat (length (s_variables s)).
Definition NumConstraints (s : Solver) : Z := Z.of_nat (length (s_constraints s)).

(** ** Python helpers *)

(** [for x in l: body] *)
Fixpoint for_each {A} (l : list A) (body : A → M ()) : M () :=
  match l with
  | [] => mret ()
  | x :: l' => body x ≫= λ _, for_each l' body
  end.

(** [{i: value(i) for i in keys}]; a repeated key keeps its last value. *)
Fixpoint dict_comp `{Countable K} {V} (keys : list K) (value : K → M V)
    (acc : gmap K V) : M (gmap K V) :=
  match keys with
  | [] => mret acc
  | i :: keys' => value i ≫= λ v, dict_comp keys' value (<[i := v]> acc)
  end.

(** [itertools.product(l1, l2)] and [itertools.product(l1, l2, l3)] *)
Definition product {A B} (l1 : list A) (l2 : list B) : list (A * B) :=
  x ← l1; y ← l2; [(x, y)].
Definition product3 {A B C} (l1 : list A) (l2 : list B) (l3 : list C)
    : list (A * B * C) :=
  x ← l1; y ← l2; z ← l3; [(x, y, z)].

(** [l.index(x)]: position of the first occurrence, [ValueError] if none. *)
Fixpoint index (x : string) (l : list string) : option Z :=
  match l with
  | [] => None
  | y :: l' => if String.eqb x y then Some 0%Z else Z.succ <$> index x l'
  end.

(** [l[i]]: a negative index counts from the end; [IndexError] out of range. *)
Definition getitem {A} (l : list A) (i : Z) : option A :=
  let n := Z.of_nat (length l) in
  if (i <? 0)%Z
  then (if (i + n <? 0)%Z then None else l !! Z.to_nat (i + n))
  else l !! Z.to_nat i.

(** [repr] of a string without quotes inside, and [str] of tuples. *)
Definition repr (s : string) : string := "'" +:+ s +:+ "'".
Definition str_ss (i : string * string) : string :=
  "(" +:+ repr i.1 +:+ ", " +:+ repr i.2 +:+ ")".
Definition str_zs (i : Z * string) : string :=
  "(" +:+ pretty i.1 +:+ ", " +:+ repr i.2 +:+ ")".
Definition str_zss (i : Z * string * string) : string :=
  "(" +:+ pretty i.1.1 +:+ ", " +:+ repr i.1.2 +:+ ", " +:+ repr i.2 +:+ ")".

(** Lookup in a dict literal kept in source order (its keys are iterated). *)
Fixpoint assoc {V} (k : string) (d : list (string * V)) : option V :=
  match d with
  | [] => None
  | (k', v) :: d' => if String.eqb k k' then Some v else assoc k d'
  end.

(** ** Feasible and optimal assignments *)

Definition is_integer (q : Q) : Prop := ∃ z : Z, q == inject_Z z.
Definition is_integerb (q : Q) : bool := Pos.eqb (Qden (Qred q)) 1%positive.

(** The value [a h] respects the declared bounds and kind of variable [v]. *)
Definition within_bounds (a : assignment) (h : nat) (v : MPVariable) : Prop :=
  v_lb v <= a h ∧ a h <= v_ub v ∧ (v_integer v = true → is_integer (a h)).

Definition within_boundsb (a : assignment) (h : nat) (v : MPVariable) : bool :=
  Qle_bool (v_lb v) (a h) && Qle_bool (a h) (v_ub v)
  && (if v_integer v then is_integerb (a h) else true).

(** Modelled from the spec: a feasible solution is an assignment within
    all declared bounds that satisfies every registered constraint
    (glossary; "bound respect" of section 8). *)
Definition feasible (m : Solver) (a : assignment) : Prop :=
  (∀ h v, s_variables m !! h = Some v → within_bounds a h v) ∧
  (∀ c, c ∈ s_constraints m → holds a c).

Definition feasibleb (m : Solver) (a : assignment) : bool :=
  forallb (λ hv, within_boundsb a hv.1 hv.2) (imap pair (s_variables m))
  && forallb (holdsb a) (s_constraints m).

(** Objective value of an assignment; 0 while no objective is set. *)
Definition objective_of (m : Solver) (a : assignment) : Q :=
  match s_objective m with
  | Some (_, e) => solution_value a e
  | None => 0
  end.

(** [x] is at least as good as [y] for the direction of the model. *)
Definition at_least_as_good (m : Solver) (x y : Q) : Prop :=
  match s_objective m with
  | Some (MAXIMIZE, _) => y <= x
  | Some (MINIMIZE, _) => x <= y
  | None => True
  end.

(** Modelled from the spec: an optimal solution is a feasible solution
    achieving the best objective value among all feasible ones (glossary). *)
Definition optimal (m : Solver) (a : assignment) : Prop :=
  feasible m a ∧
  ∀ a', feasible m a' → at_least_as_good m (objective_of m a) (objective_of m a').

(** An assignment given by a table of (handle, value) pairs, 0 elsewhere. *)
Definition point (l : list (option nat * Q)) : assignment :=
  λ h, default 0 ((snd ∘ snd) <$> list_find (λ p, p.1 = Some h) l).

(** The variable registered in dict [d] under key [k] has value [q]. *)
Definition has_value `{Countable K} (a : assignment) (d : gmap K nat)
    (k : K) (q : Q) : Prop :=
  ∃ h, d !! k = Some h ∧ a h == q.

(** ** Solving and reporting *)

(** Modelled from the spec: the status code returned by the solve
    operation (section 6). *)
Inductive ResultStatus : Type :=
| OPTIMAL | INFEASIBLE | UNBOUNDED | NOT_SOLVED | OTHER_STATUS.

#[global] Instance ResultStatus_eq_dec : EqDecision ResultStatus.
Proof. solve_decision. Defined.

(** Modelled from the spec: what the scripts query after [model.Solve()]:
    the status, [model.Objective().Value()], [model.wall_time()] in
    milliseconds, [model.iterations()] and [model.nodes()]. *)
Record SolveResult : Type := MkSolveResult {
  r_status : ResultStatus;
  r_objective_value : Q;
  r_wall_time : Z;
  r_iterations : Z;
  r_nodes : Z
}.


(** The arguments of a [print] call.  Number formatting is left to Python:
    a printed number is kept as the number. *)
Inductive PyVal : Type :=
| VStr (s : string)
| VInt (z : Z)
| VFloat (q : Q)
| VFormat (template : string) (arg : PyVal).

(** Standard output: one entry per [print] call, in order. *)
Definition stdout : Type := list (list PyVal).

(** The string of [print("\n")]: one line feed. *)
Definition newline : string := String (Ascii.ascii_of_nat 10) EmptyString.

Definition not_optimal_message : string :=
  "The problem does not have an optimal solution.".

(** The report shared by the three scripts, from [if status == OPTIMAL]
    to the iteration count. *)
Definition report_status (r : SolveResult) : stdout :=
  if decide (r_status r = OPTIMAL)
  then [ [VStr "Solution:"];
         [VStr "Objective value ="; VFloat (r_objective_value r)] ]
  else [ [VStr not_optimal_message] ].

Definition report_size (model : Solver) : stdout :=
  [ [VStr newline];
    [VStr "Problem size:"];
    [VStr "Number of decision variables ="; VInt (NumVariables model)];
    [VStr "Number of constraints ="; VInt (NumConstraints model)] ].

Definition report_advanced (r : SolveResult) : stdout :=
  [ [VStr newline];
    [VStr "Advanced usage:"];
    [VFormat "Problem solved in %s seconds"
       (VFloat (inject_Z (r_wall_time r) / 1000))];
    [VFormat "Problem solved in %s iterations" (VInt (r_iterations r))] ].

Definition report (model : Solver) (r : SolveResult) : stdout :=
  report_status r ++ report_size model ++ report_advanced r.

(** ** factory_planning_2_ortools.py *)

Module Factory.

Definition products : list string :=
  ["Prod1"; "Prod2"; "Prod3"; "Prod4"; "Prod5"; "Prod6"; "Prod7"].
Definition machines : list string :=
  ["grinder"; "vertDrill"; "horiDrill"; "borer"; "planer"].
Definition months : list string :=
  ["Jan"; "Feb"; "Mar"; "Apr"; "May"; "Jun"].

Definition profit : gmap string Z :=
  list_to_map
    [("Prod1", 10); ("Prod2", 6); ("Prod3", 8); ("Prod4", 4);
     ("Prod5", 11); ("Prod6", 9); ("Prod7", 3)]%Z.

Definition time_required : gmap string (list (string * Q)) :=
  list_to_map
    [("grinder", [("Prod1", 0.5); ("Prod2", 0.7); ("Prod5", 0.3);
                  ("Prod6", 0.2); ("Prod7", 0.5)]);
     ("vertDrill", [("Prod1", 0.1); ("Prod2", 0.2); ("Prod4", 0.3);
                    ("Prod6", 0.6)]);
     ("horiDrill", [("Prod1", 0.2); ("Prod3", 0.8); ("Prod7", 0.6)]);
     ("borer", [("Prod1", 0.05); ("Prod2", 0.03); ("Prod4", 0.07);
                ("Prod5", 0.1); ("Prod7", 0.08)]);
     ("planer", [("Prod3", 0.01); ("Prod5", 0.05); ("Prod7", 0.05)])].

Definition machines_down : gmap string Z :=
  list_to_map
    [("grinder", 2); ("vertDrill", 2); ("horiDrill", 3); ("borer", 1);
     ("planer", 1)]%Z.

Definition machines_installed : gmap string Z :=
  list_to_map
    [("grinder", 4); ("vertDrill", 2); ("horiDrill", 3); ("borer", 1);
     ("planer", 1)]%Z.

Definition max_sales : gmap (string * string) Z :=
  list_to_map
    [(("Jan", "Prod1"), 500); (("Jan", "Prod2"), 1000);
     (("Jan", "Prod3"), 300); (("Jan", "Prod4"), 300);
     (("Jan", "Prod5"), 800); (("Jan", "Prod6"), 200);
     (("Jan", "Prod7"), 100);
     (("Feb", "Prod1"), 600); (("Feb", "Prod2"), 500);
     (("Feb", "Prod3"), 200); (("Feb", "Prod4"), 0);
     (("Feb", "Prod5"), 400); (("Feb", "Prod6"), 300);
     (("Feb", "Prod7"), 150);
     (("Mar", "Prod1"), 300); (("Mar", "Prod2"), 600);
     (("Mar", "Prod3"), 0); (("Mar", "Prod4"), 0);
     (("Mar", "Prod5"), 500); (("Mar", "Prod6"), 400);
     (("Mar", "Prod7"), 100);
     (("Apr", "Prod1"), 200); (("Apr", "Prod2"), 300);
     (("Apr", "Prod3"), 400); (("Apr", "Prod4"), 500);
     (("Apr", "Prod5"), 200); (("Apr", "Prod6"), 0);
     (("Apr", "Prod7"), 100);
     (("May", "Prod1"), 0); (("May", "Prod2"), 100);
     (("May", "Prod3"), 500); (("May", "Prod4"), 100);
     (("May", "Prod5"), 1000); (("May", "Prod6"), 300);
     (("May", "Prod7"), 0);
     (("Jun", "Prod1"), 500); (("Jun", "Prod2"), 500);
     (("Jun", "Prod3"), 100); (("Jun", "Prod4"), 300);
     (("Jun", "Prod5"), 1100); (("Jun", "Prod6"), 500);
     (("Jun", "Prod7"), 60)]%Z.

Definition inventory_holding_cost : Q := 0.5.
Definition maximum_inventory : Z := 100.
Definition inventory_target : Z := 50.
Definition hours_per_month : Z := 2 * 8 * 24.

Definition month_product : list (string * string) := product months products.

(** The four dicts of variable handles. *)
Record Vars : Type := MkVars {
  dv_manufacture : gmap (string * string) nat;
  dv_inventory : gmap (string * string) nat;
  dv_sold : gmap (string * string) nat;
  dv_repair : gmap (string * string) nat
}.

Definition register_variables : M Vars :=
  dv_manufacture ← dict_comp month_product
    (λ i, NumVar 0 1000000 ("manuf_" +:+ str_ss i)) ∅;
  dv_inventory ← dict_comp month_product
    (λ i, NumVar 0 (inject_Z maximum_inventory) ("invt_" +:+ str_ss i)) ∅;
  dv_sold ← dict_comp month_product
    (λ i, ub ← lift (max_sales !! i);
          NumVar 0 (inject_Z ub) ("sold_" +:+ str_ss i)) ∅;
  dv_repair ← dict_comp (mth ← months; mach ← machines; [(mth, mach)])
    (λ '(mth, mach), ub ← lift (machines_down !! mach);
          IntVar 0 (inject_Z ub) ("down_" +:+ mth +:+ "_" +:+ mach)) ∅;
  mret (MkVars dv_manufacture dv_inventory dv_sold dv_repair).

Section constraints.
Variable dv : Vars.

(** 1. Initial balance (January) *)
Definition initial_balance (prd : string) : option LinearConstraint :=
  m ← dv_manufacture dv !! ("Jan", prd);
  s ← dv_sold dv !! ("Jan", prd);
  i ← dv_inventory dv !! ("Jan", prd);
  Some (Constraint (EVar m) EQ (EAdd (EVar s) (EVar i))).

(** 2. Balance of the later months *)
Definition balance (mth prd : string) : option LinearConstraint :=
  mth_index ← index mth months;
  prev_mth ← getitem months (mth_index - 1);
  ip ← dv_inventory dv !! (prev_mth, prd);
  m ← dv_manufacture dv !! (mth, prd);
  s ← dv_sold dv !! (mth, prd);
  i ← dv_inventory dv !! (mth, prd);
  Some (Constraint (EAdd (EVar ip) (EVar m)) EQ (EAdd (EVar s) (EVar i))).

(** 3. Inventory target at the end of the horizon *)
Definition target (prd : string) : option LinearConstraint :=
  i ← dv_inventory dv !! ("Jun", prd);
  Some (Constraint (EVar i) EQ (EConst (inject_Z inventory_target))).

(** 4. Machine capacity *)
Definition capacity (mth mach : string) : option LinearConstraint :=
  times ← time_required !! mach;
  terms ← mapM (λ prd, t ← assoc prd times;
                       m ← dv_manufacture dv !! (mth, prd);
                       Some (EMul t (EVar m))) times.*1;
  installed ← machines_installed !! mach;
  r ← dv_repair dv !! (mth, mach);
  Some (Constraint (Sum terms) LE
          (EMul (inject_Z hours_per_month)
                (ESub (EConst (inject_Z installed)) (EVar r)))).

(** 5. Downtime requirement *)
Definition downtime (mach : string) : option LinearConstraint :=
  terms ← mapM (λ mth, EVar <$> dv_repair dv !! (mth, mach)) months;
  down ← machines_down !! mach;
  Some (Constraint (Sum terms) EQ (EConst (inject_Z down))).

Definition obj_func : option LinearExpr :=
  revenue ← mapM (λ '(mth, prd), p ← profit !! prd;
                                 s ← dv_sold dv !! (mth, prd);
                                 Some (EMul (inject_Z p) (EVar s)))
                 (product months products);
  holding ← mapM (λ '(mth, prd), i ← dv_inventory dv !! (mth, prd);
                                 Some (EMul inventory_holding_cost (EVar i)))
                 (product months products);
  Some (ESub (Sum revenue) (Sum holding)).

Definition add_constraints : M () :=
  for_each products (λ prd, lift (initial_balance prd) ≫= Add);;
  for_each (drop 1 months) (λ mth,
    for_each products (λ prd, lift (balance mth prd) ≫= Add));;
  for_each products (λ prd, lift (target prd) ≫= Add);;
  for_each months (λ mth,
    for_each machines (λ mach, lift (capacity mth mach) ≫= Add));;
  for_each machines (λ mach, lift (downtime mach) ≫= Add).

End constraints.

(** The script up to [model.Maximize(obj_func)]. *)
Definition build : M Vars :=
  dv ← register_variables;
  add_constraints dv;;
  lift (obj_func dv) ≫= Maximize;;
  mret dv.

Definition run_build : option (Vars * Solver) :=
  build (new_Solver "factory_planning_2" CBC_MIXED_INTEGER_PROGRAMMING).

(** The dicts and the model as they are when [model.Solve()] is called;
    [run_build_eq] below shows that the build does end normally. *)
Definition dv : Vars :=
  default (MkVars ∅ ∅ ∅ ∅) (fst <$> run_build).
Definition model : Solver :=
  default (new_Solver "" CBC_MIXED_INTEGER_PROGRAMMING) (snd <$> run_build).

(** The whole script: build, one solve, report.  [Solve] is the external
    solver; the factory script also prints the branch-and-bound nodes. *)
Definition main (Solve : Solver → SolveResult) : option stdout :=
  '(_, model) ← run_build;
  let r := Solve model in
  Some (report model r ++
        [ [VFormat "Problem solved in %d branch-and-bound nodes"
             (VInt (r_nodes r))] ]).

End Factory.

(** ** food_manufacture_1_ortools.py *)

Module Food.

Definition months : list string :=
  ["Jan"; "Feb"; "Mar"; "Apr"; "May"; "Jun"].
Definition oils : list string :=
  ["VEG1"; "VEG2"; "OIL1"; "OIL2"; "OIL3"].

Definition cost : gmap (string * string) Z :=
  list_to_map
    [(("Jan", "VEG1"), 110); (("Jan", "VEG2"), 120); (("Jan", "OIL1"), 130);
     (("Jan", "OIL2"), 110); (("Jan", "OIL3"), 115);
     (("Feb", "VEG1"), 130); (("Feb", "VEG2"), 130); (("Feb", "OIL1"), 110);
     (("Feb", "OIL2"), 90); (("Feb", "OIL3"), 115);
     (("Mar", "VEG1"), 110); (("Mar", "VEG2"), 140); (("Mar", "OIL1"), 130);
     (("Mar", "OIL2"), 100); (("Mar", "OIL3"), 95);
     (("Apr", "VEG1"), 120); (("Apr", "VEG2"), 110); (("Apr", "OIL1"), 120);
     (("Apr", "OIL2"), 120); (("Apr", "OIL3"), 125);
     (("May", "VEG1"), 100); (("May", "VEG2"), 120); (("May", "OIL1"), 150);
     (("May", "OIL2"), 110); (("May", "OIL3"), 105);
     (("Jun", "VEG1"), 90); (("Jun", "VEG2"), 100); (("Jun", "OIL1"), 140);
     (("Jun", "OIL2"), 80); (("Jun", "OIL3"), 135)]%Z.

Definition hardness : gmap string Q :=
  list_to_map
    [("VEG1", 8.8); ("VEG2", 6.1); ("OIL1", 2.0); ("OIL2", 4.2);
     ("OIL3", 5.0)].

Definition price : Z := 150.
Definition init_store_inventory : Z := 500.
Definition target_store_inventory : Z := 500.
Definition veg_upper_cap : Z := 200.
Definition oil_upper_cap : Z := 250.

Definition min_hardness : Z := 3.
Definition max_hardness : Z := 6.
Definition inventory_holding_cost : Z := 5.

Definition month_oil : list (string * string) := product months oils.

Record Vars : Type := MkVars {
  dv_prod : gmap string nat;
  dv_oil_buy : gmap (string * string) nat;
  dv_oil_consume : gmap (string * string) nat;
  dv_oil_inventory : gmap (string * string) nat
}.

Definition register_variables : M Vars :=
  dv_prod ← dict_comp months
    (λ i, NumVar 0 1000000 ("prod_month_" +:+ i)) ∅;
  dv_oil_buy ← dict_comp month_oil
    (λ i, NumVar 0 1000000 ("buy_oil_" +:+ str_ss i)) ∅;
  dv_oil_consume ← dict_comp month_oil
    (λ i, NumVar 0 1000000 ("consume_oil_" +:+ str_ss i)) ∅;
  dv_oil_inventory ← dict_comp month_oil
    (λ i, NumVar 0 1000000 ("invt_oil_" +:+ str_ss i)) ∅;
  mret (MkVars dv_prod dv_oil_buy dv_oil_consume dv_oil_inventory).

Definition veg_oils : list string := ["VEG1"; "VEG2"].
Definition non_veg_oils : list string := ["OIL1"; "OIL2"; "OIL3"].

Section constraints.
Variable dv : Vars.

(** 1. Balance constraint for January *)
Definition initial_balance (ol : string) : option LinearConstraint :=
  b ← dv_oil_buy dv !! ("Jan", ol);
  c ← dv_oil_consume dv !! ("Jan", ol);
  i ← dv_oil_inventory dv !! ("Jan", ol);
  Some (Constraint (EAdd (EConst (inject_Z init_store_inventory)) (EVar b))
          EQ (EAdd (EVar c) (EVar i))).

(** 2. Balance constraint for subsequent months *)
Definition balance (prev_mth mth ol : string) : option LinearConstraint :=
  ip ← dv_oil_inventory dv !! (prev_mth, ol);
  b ← dv_oil_buy dv !! (mth, ol);
  c ← dv_oil_consume dv !! (mth, ol);
  i ← dv_oil_inventory dv !! (mth, ol);
  Some (Constraint (EAdd (EVar ip) (EVar b)) EQ (EAdd (EVar c) (EVar i))).

(** The month before [mth], as the loop computes it. *)
Definition prev_month (mth : string) : option string :=
  mth_index ← index mth months;
  getitem months (mth_index - 1).

(** 3. End of month inventory target *)
Definition target (ol : string) : option LinearConstraint :=
  i ← dv_oil_inventory dv !! ("Jun", ol);
  Some (Constraint (EVar i) EQ (EConst (inject_Z target_store_inventory))).

(** 4. Refinement capacity *)
Definition consumed (mth : string) (ols : list string) : option LinearExpr :=
  Sum <$> mapM (λ ol, EVar <$> dv_oil_consume dv !! (mth, ol)) ols.

Definition veg_capacity (mth : string) : option LinearConstraint :=
  e ← consumed mth veg_oils;
  Some (Constraint e LE (EConst (inject_Z veg_upper_cap))).

Definition oil_capacity (mth : string) : option LinearConstraint :=
  e ← consumed mth non_veg_oils;
  Some (Constraint e LE (EConst (inject_Z oil_upper_cap))).

(** 5. Hardness tolerances *)
Definition weighted_hardness (mth : string) : option LinearExpr :=
  Sum <$> mapM (λ ol, hd ← hardness !! ol;
                      c ← dv_oil_consume dv !! (mth, ol);
                      Some (EMul hd (EVar c))) oils.

Definition hardness_min (mth : string) : option LinearConstraint :=
  e ← weighted_hardness mth;
  p ← dv_prod dv !! mth;
  Some (Constraint e GE (EMul (inject_Z min_hardness) (EVar p))).

Definition hardness_max (mth : string) : option LinearConstraint :=
  e ← weighted_hardness mth;
  p ← dv_prod dv !! mth;
  Some (Constraint e LE (EMul (inject_Z max_hardness) (EVar p))).

(** 6. Oil consumed equals food produced *)
Definition mass_conservation (mth : string) : option LinearConstraint :=
  e ← consumed mth oils;
  p ← dv_prod dv !! mth;
  Some (Constraint e EQ (EVar p)).

Definition obj_func : option LinearExpr :=
  revenue ← mapM (λ mth, p ← dv_prod dv !! mth;
                         Some (EMul (inject_Z price) (EVar p))) months;
  purchase ← mapM (λ mth_ol, c ← cost !! mth_ol;
                             b ← dv_oil_buy dv !! mth_ol;
                             Some (EMul (inject_Z c) (EVar b))) month_oil;
  holding ← mapM (λ mth_ol, i ← dv_oil_inventory dv !! mth_ol;
                            Some (EMul (inject_Z inventory_holding_cost)
                                       (EVar i))) month_oil;
  Some (ESub (ESub (Sum revenue) (Sum purchase)) (Sum holding)).

Definition add_constraints : M () :=
  for_each oils (λ ol, lift (initial_balance ol) ≫= Add);;
  for_each (drop 1 months) (λ mth,
    prev_mth ← lift (prev_month mth);
    for_each oils (λ ol, lift (balance prev_mth mth ol) ≫= Add));;
  for_each oils (λ ol, lift (target ol) ≫= Add);;
  for_each months (λ mth,
    lift (veg_capacity mth) ≫= Add;;
    lift (oil_capacity mth) ≫= Add);;
  for_each months (λ mth,
    lift (hardness_min mth) ≫= Add;;
    lift (hardness_max mth) ≫= Add);;
  for_each months (λ mth, lift (mass_conservation mth) ≫= Add).

End constraints.

(** The script up to [model.Maximize(obj_func)]. *)
Definition build : M Vars :=
  dv ← register_variables;
  add_constraints dv;;
  lift (obj_func dv) ≫= Maximize;;
  mret dv.

Definition run_build : option (Vars * Solver) :=
  build (new_Solver "food_manufacture_1" GLOP_LINEAR_PROGRAMMING).

Definition dv : Vars :=
  default (MkVars ∅ ∅ ∅ ∅) (fst <$> run_build).
Definition model : Solver :=
  default (new_Solver "" GLOP_LINEAR_PROGRAMMING) (snd <$> run_build).

Definition main (Solve : Solver → SolveResult) : option stdout :=
  '(_, model) ← run_build;
  Some (report model (Solve model)).

End Food.

(** ** manpower_planning_ortools.py *)

Module Manpower.

Definition years : list Z := [1; 2; 3]%Z.
Definition skills : list string := ["s1"; "s2"; "s3"].

Definition current_workforce : gmap string Z :=
  list_to_map [("s1", 2000); ("s2", 1500); ("s3", 1000)]%Z.
Definition demand : gmap (Z * string) Z :=
  list_to_map
    [((1, "s1"), 1000); ((1, "s2"), 1400); ((1, "s3"), 1000);
     ((2, "s1"), 500); ((2, "s2"), 2000); ((2, "s3"), 1500);
     ((3, "s1"), 0); ((3, "s2"), 2500); ((3, "s3"), 2000)]%Z.
Definition new_hire_attrition : gmap string Q :=
  list_to_map [("s1", 0.25); ("s2", 0.20); ("s3", 0.10)].
Definition experienced_attrition : gmap string Q :=
  list_to_map [("s1", 0.10); ("s2", 0.05); ("s3", 0.05)].
Definition downgrade_skill_attrition : Q := 0.50.
Definition max_hiring : gmap (Z * string) Z :=
  list_to_map
    [((1, "s1"), 500); ((1, "s2"), 800); ((1, "s3"), 500);
     ((2, "s1"), 500); ((2, "s2"), 800); ((2, "s3"), 500);
     ((3, "s1"), 500); ((3, "s2"), 800); ((3, "s3"), 500)]%Z.
Definition max_overmanning : Z := 150.
Definition max_parttime : Z := 50.
Definition parttime_cap : Q := 0.50.
Definition max_train_unskilled : Z := 200.
Definition max_train_semiskilled : Q := 0.25.

Definition training_cost : gmap string Z :=
  list_to_map [("s1", 400); ("s2", 500)]%Z.
Definition layoff_cost : gmap string Z :=
  list_to_map [("s1", 200); ("s2", 500); ("s3", 500)]%Z.
Definition parttime_cost : gmap string Z :=
  list_to_map [("s1", 500); ("s2", 400); ("s3", 400)]%Z.
Definition overmanning_cost : gmap string Z :=
  list_to_map [("s1", 1500); ("s2", 2000); ("s3", 3000)]%Z.

Definition year_skill : list (Z * string) := product years skills.
Definition year_skill_skill : list (Z * string * string) :=
  product3 years skills skills.

Record Vars : Type := MkVars {
  dv_hire : gmap (Z * string) nat;
  dv_part_time : gmap (Z * string) nat;
  dv_workforce : gmap (Z * string) nat;
  dv_layoff : gmap (Z * string) nat;
  dv_excess : gmap (Z * string) nat;
  dv_train : gmap (Z * string * string) nat
}.

Definition register_variables : M Vars :=
  dv_hire ← dict_comp year_skill
    (λ i, ub ← lift (max_hiring !! i);
          NumVar 0 (inject_Z ub) ("hire_" +:+ str_zs i)) ∅;
  dv_part_time ← dict_comp year_skill
    (λ i, NumVar 0 (inject_Z max_parttime) ("part_time_" +:+ str_zs i)) ∅;
  dv_workforce ← dict_comp year_skill
    (λ i, NumVar 0 1000000 ("workforce_" +:+ str_zs i)) ∅;
  dv_layoff ← dict_comp year_skill
    (λ i, NumVar 0 1000000 ("layoff_" +:+ str_zs i)) ∅;
  dv_excess ← dict_comp year_skill
    (λ i, NumVar 0 1000000 ("excess_" +:+ str_zs i)) ∅;
  dv_train ← dict_comp year_skill_skill
    (λ i, NumVar 0 1000000 ("train_" +:+ str_zss i)) ∅;
  mret (MkVars dv_hire dv_part_time dv_workforce dv_layoff dv_excess dv_train).

Section constraints.
Variable dv : Vars.

(** The generator of the two [model.Sum] calls of a balance constraint:
    workers retrained into [s] from the skills [s2] selected by [sel], at
    survival rate [keep], minus those retrained from [s] to [s2]. *)
Definition transfers (t : Z) (s : string) (keep : Q)
    (sel : string → bool) : option LinearExpr :=
  Sum <$> mapM (λ s2, t_in ← dv_train dv !! (t, s2, s);
                      t_out ← dv_train dv !! (t, s, s2);
                      Some (ESub (EMul keep (EVar t_in)) (EVar t_out)))
               (filter (λ s2, sel s2 = true) skills).

(** The right-hand side shared by both balance constraints, from the
    hires onwards; [carried] is its first term. *)
Definition balance_rhs (carried : LinearExpr) (t : Z) (s : string)
    : option LinearExpr :=
  ea ← experienced_attrition !! s;
  nha ← new_hire_attrition !! s;
  h ← dv_hire dv !! (t, s);
  up ← transfers t s (1 - ea) (λ s2, String.ltb s2 s);
  down ← transfers t s (1 - downgrade_skill_attrition) (λ s2, String.ltb s s2);
  l ← dv_layoff dv !! (t, s);
  Some (ESub (EAdd (EAdd (EAdd carried (EMul (1 - nha) (EVar h))) up) down)
             (EVar l)).

(** 1. Initial workforce balance, year == 1 *)
Definition initial_balance (s : string) : option LinearConstraint :=
  w ← dv_workforce dv !! (1%Z, s);
  ea ← experienced_attrition !! s;
  cw ← current_workforce !! s;
  rhs ← balance_rhs (EConst ((1 - ea) * inject_Z cw)) 1 s;
  Some (Constraint (EVar w) EQ rhs).

(** 2. Subsequent workforce balance, year > 1 *)
Definition balance (t : Z) (s : string) : option LinearConstraint :=
  w ← dv_workforce dv !! (t, s);
  ea ← experienced_attrition !! s;
  wp ← dv_workforce dv !! ((t - 1)%Z, s);
  rhs ← balance_rhs (EMul (1 - ea) (EVar wp)) t s;
  Some (Constraint (EVar w) EQ rhs).

(** 3. Unskilled training *)
Definition train_unskilled_cap (t : Z) : option LinearConstraint :=
  x ← dv_train dv !! (t, "s1", "s2");
  Some (Constraint (EVar x) LE (EConst (inject_Z max_train_unskilled))).

Definition no_unskilled_to_skilled (t : Z) : option LinearConstraint :=
  x ← dv_train dv !! (t, "s1", "s3");
  Some (Constraint (EVar x) EQ (EConst 0)).

(** 4. Semi-skilled training *)
Definition train_semiskilled_cap (t : Z) : option LinearConstraint :=
  x ← dv_train dv !! (t, "s2", "s3");
  w ← dv_workforce dv !! (t, "s3");
  Some (Constraint (EVar x) LE (EMul max_train_semiskilled (EVar w))).

(** 5. Overmanning *)
Definition overmanning (t : Z) : option LinearConstraint :=
  terms ← mapM (λ s, EVar <$> dv_excess dv !! (t, s)) skills;
  Some (Constraint (Sum terms) LE (EConst (inject_Z max_overmanning))).

(** 6. Demand *)
Definition demand_met (t : Z) (s : string) : option LinearConstraint :=
  w ← dv_workforce dv !! (t, s);
  d ← demand !! (t, s);
  x ← dv_excess dv !! (t, s);
  p ← dv_part_time dv !! (t, s);
  Some (Constraint (EVar w) EQ
          (EAdd (EAdd (EConst (inject_Z d)) (EVar x))
                (EMul parttime_cap (EVar p)))).

Definition obj_layoffs : option LinearExpr :=
  Sum <$> mapM (λ '(t, s), EVar <$> dv_layoff dv !! (t, s))
               (product years skills).

Definition add_constraints : M () :=
  for_each skills (λ s, lift (initial_balance s) ≫= Add);;
  for_each (drop 1 years) (λ t,
    for_each skills (λ s, lift (balance t s) ≫= Add));;
  for_each years (λ t,
    lift (train_unskilled_cap t) ≫= Add;;
    lift (no_unskilled_to_skilled t) ≫= Add);;
  for_each years (λ t, lift (train_semiskilled_cap t) ≫= Add);;
  for_each years (λ t, lift (overmanning t) ≫= Add);;
  for_each years (λ t,
    for_each skills (λ s, lift (demand_met t s) ≫= Add)).

End constraints.

(** The script up to [model.Minimize(obj_layoffs)]. *)
Definition build : M Vars :=
  dv ← register_variables;
  add_constraints dv;;
  lift (obj_layoffs dv) ≫= Minimize;;
  mret dv.

Definition run_build : option (Vars * Solver) :=
  build (new_Solver "manpower_planning" GLOP_LINEAR_PROGRAMMING).

Definition dv : Vars :=
  default (MkVars ∅ ∅ ∅ ∅ ∅ ∅) (fst <$> run_build).
Definition model : Solver :=
  default (new_Solver "" GLOP_LINEAR_PROGRAMMING) (snd <$> run_build).

Definition main (Solve : Solver → SolveResult) : option stdout :=
  '(_, model) ← run_build;
  Some (report model (Solve model)).

End Manpower.

(** The built dicts and models are large closed terms: they are evaluated
    with [vm_compute] where needed and never unfolded by [simpl]. *)
#[global] Arguments Factory.run_build : simpl never.
#[global] Arguments Factory.dv : simpl never.
#[global] Arguments Factory.model : simpl never.
#[global] Arguments Food.run_build : simpl never.
#[global] Arguments Food.dv : simpl never.
#[global] Arguments Food.model : simpl never.
#[global] Arguments Manpower.run_build : simpl never.
#[global] Arguments Manpower.dv : simpl never.
#[global] Arguments Manpower.model : simpl never.

(** ** Decidable equality of constraints (used to find a constraint in a model) *)

#[global] Instance Q_eq_dec : EqDecision Q.
Proof. solve_decision. Defined.
#[global] Instance LinearExpr_eq_dec : EqDecision LinearExpr.
Proof. solve_decision. Defined.
#[global] Instance Relation_eq_dec : EqDecision Relation.
Proof. solve_decision. Defined.
#[global] Instance LinearConstraint_eq_dec : EqDecision LinearConstraint.
Proof. solve_decision. Defined.

(** Every element of [l] yields, through [f], a constraint of [cons]. *)
Definition all_registered {A} (f : A → option LinearConstraint)
    (cons : list LinearConstraint) (l : list A) : Prop :=
  Forall (λ x, ∃ c, f x = Some c ∧ c ∈ cons) l.

Definition all_registeredb {A} (f : A → option LinearConstraint)
    (cons : list LinearConstraint) (l : list A) : bool :=
  forallb (λ x, match f x with
                | Some c => bool_decide (c ∈ cons)
                | None => false
                end) l.

(** ** Sample assignments *)

(** Factory: produce the 50 target units of every product in June, sell
    nothing, and do all the maintenance in January. *)
Definition factory_point : assignment :=
  point
    (((λ prd, (Factory.dv_manufacture Factory.dv !! ("Jun", prd), 50))
        <$> Factory.products)
     ++ ((λ prd, (Factory.dv_inventory Factory.dv !! ("Jun", prd), 50))
        <$> Factory.products)
     ++ ((λ mach, (Factory.dv_repair Factory.dv !! ("Jan", mach),
                   inject_Z (default 0%Z (Factory.machines_down !! mach))))
        <$> Factory.machines)).

(** Food: buy, refine and produce nothing; keep the 500 tons of every oil
    in store. *)
Definition food_point : assignment :=
  point ((λ i, (Food.dv_oil_inventory Food.dv !! i, 500)) <$> Food.month_oil).

(** Manpower: no overmanning and no part-time work, so the workforce
    equals the demand; the balance is met by hiring, retraining upwards
    and layoffs. *)
Definition manpower_point : assignment :=
  let dv := Manpower.dv in
  point
    (((λ i, (Manpower.dv_workforce dv !! i,
             inject_Z (default 0%Z (Manpower.demand !! i))))
        <$> Manpower.year_skill)
     ++ [ (Manpower.dv_layoff dv !! (1%Z, "s1"), 800);
          (Manpower.dv_layoff dv !! (1%Z, "s2"), 25);
          (Manpower.dv_hire dv !! (1%Z, "s3"), 500 # 9);
          (Manpower.dv_hire dv !! (2%Z, "s3"), 500);
          (Manpower.dv_train dv !! (2%Z, "s2", "s3"), 2000 # 19);
          (Manpower.dv_train dv !! (2%Z, "s1", "s2"), 200);
          (Manpower.dv_hire dv !! (2%Z, "s2"), 13900 # 19);
          (Manpower.dv_layoff dv !! (2%Z, "s1"), 200);
          (Manpower.dv_hire dv !! (3%Z, "s3"), 500);
          (Manpower.dv_train dv !! (3%Z, "s2", "s3"), 2500 # 19);
          (Manpower.dv_train dv !! (3%Z, "s1", "s2"), 200);
          (Manpower.dv_hire dv !! (3%Z, "s2"), 25725 # 38);
          (Manpower.dv_layoff dv !! (3%Z, "s1"), 250) ]).

(** ** Values of registered variables *)

(** Value of the variable registered in [d] under key [k]; the default is
    never used for a registered key. *)
Definition value `{Countable K} (a : assignment) (d : gmap K nat) (k : K) : Q :=
  default 0 (a <$> d !! k).

(** All keys of [keys] are registered in the dict [d]. *)
Definition registered `{Countable K} {V} (d : gmap K V) (keys : list K) : Prop :=
  Forall (λ k, is_Some (d !! k)) keys.

Definition registeredb `{Countable K} {V} (d : gmap K V) (keys : list K) : bool :=
  forallb (λ k, match d !! k with Some _ => true | None => false end) keys.

(** The variable registered in [d] under [k] was declared as [v]. *)
Definition declared `{Countable K} (m : Solver) (d : gmap K nat) (k : K)
    (v : MPVariable) : Prop :=
  ∃ h, d !! k = Some h ∧ s_variables m !! h = Some v.

#[global] Instance MPVariable_eq_dec : EqDecision MPVariable.
Proof. solve_decision. Defined.

Definition declaredb `{Countable K} (m : Solver) (d : gmap K nat) (k : K)
    (v : MPVariable) : bool :=
  match d !! k with
  | Some h => bool_decide (s_variables m !! h = Some v)
  | None => false
  end.

Definition Qsum (l : list Q) : Q := foldr Qplus 0 l.

(** ** Periods and balance terms, as the specification names them *)

(** The element before the first occurrence of [x] in [l], if any. *)
Fixpoint previous (l : list string) (x : string) : option string :=
  match l with
  | y :: l' =>
      match l' with
      | z :: _ => if String.eqb x z then Some y else previous l' x
      | [] => None
      end
  | [] => None
  end.

(** Handles registered in [d] under the keys [keys]. *)
Definition handles_of `{Countable K} (d : gmap K nat) (keys : list K)
    : list nat :=
  omap (λ k, d !! k) keys.

(** All variables of one period, per model. *)
Definition factory_period_variables (mth : string) : list nat :=
  handles_of (Factory.dv_manufacture Factory.dv) (pair mth <$> Factory.products)
  ++ handles_of (Factory.dv_inventory Factory.dv) (pair mth <$> Factory.products)
  ++ handles_of (Factory.dv_sold Factory.dv) (pair mth <$> Factory.products)
  ++ handles_of (Factory.dv_repair Factory.dv) (pair mth <$> Factory.machines).

Definition food_period_variables (mth : string) : list nat :=
  handles_of (Food.dv_prod Food.dv) [mth]
  ++ handles_of (Food.dv_oil_buy Food.dv) (pair mth <$> Food.oils)
  ++ handles_of (Food.dv_oil_consume Food.dv) (pair mth <$> Food.oils)
  ++ handles_of (Food.dv_oil_inventory Food.dv) (pair mth <$> Food.oils).

Definition manpower_period_variables (t : Z) : list nat :=
  handles_of (Manpower.dv_hire Manpower.dv) (pair t <$> Manpower.skills)
  ++ handles_of (Manpower.dv_part_time Manpower.dv) (pair t <$> Manpower.skills)
  ++ handles_of (Manpower.dv_workforce Manpower.dv) (pair t <$> Manpower.skills)
  ++ handles_of (Manpower.dv_layoff Manpower.dv) (pair t <$> Manpower.skills)
  ++ handles_of (Manpower.dv_excess Manpower.dv) (pair t <$> Manpower.skills)
  ++ handles_of (Manpower.dv_train Manpower.dv)
       (product3 [t] Manpower.skills Manpower.skills).

(** The balance constraint the food script adds for a later month and an
    oil: the outer loop finds the previous month, the inner one builds the
    constraint. *)
Definition food_later_balance (i : string * string)
    : option LinearConstraint :=
  Food.prev_month i.1 ≫= λ prev_mth, Food.balance Food.dv prev_mth i.1 i.2.

(** A constraint is seeded from a constant when one of its sides has a
    non-zero constant part. *)
Definition seeded_from_constant (c : LinearConstraint) : Prop :=
  ¬ (constant_part (c_lhs c) == 0 ∧ constant_part (c_rhs c) == 0).

(** Skills below and above [s] in Python's string order. *)
Definition lower_skills (s : string) : list string :=
  filter (λ s2, String.ltb s2 s = true) Manpower.skills.
Definition higher_skills (s : string) : list string :=
  filter (λ s2, String.ltb s s2 = true) Manpower.skills.

Section manpower_balance_terms.
Variable a : assignment.
Variable t : Z.
Variable s : string.

(** Year-[t] inflow into skill [s]: surviving hires and surviving
    workers retrained into [s] from a lower or from a higher skill. *)
Definition manpower_inflow : Q :=
  (1 - default 0 (Manpower.new_hire_attrition !! s))
    * value a (Manpower.dv_hire Manpower.dv) (t, s)
  + Qsum ((λ s2, (1 - default 0 (Manpower.experienced_attrition !! s))
                 * value a (Manpower.dv_train Manpower.dv) (t, s2, s))
            <$> lower_skills s)
  + Qsum ((λ s2, (1 - Manpower.downgrade_skill_attrition)
                 * value a (Manpower.dv_train Manpower.dv) (t, s2, s))
            <$> higher_skills s).

(** Year-[t] outflow from skill [s]: layoffs and workers retrained from
    [s] to another skill. *)
Definition manpower_outflow : Q :=
  value a (Manpower.dv_layoff Manpower.dv) (t, s)
  + Qsum ((λ s2, value a (Manpower.dv_train Manpower.dv) (t, s, s2))
            <$> lower_skills s)
  + Qsum ((λ s2, value a (Manpower.dv_train Manpower.dv) (t, s, s2))
            <$> higher_skills s).

(** Balance residual when the fraction [carry] of last year's workforce
    is carried into year [t]. *)
Definition manpower_balance_residual (carry : Q) : Q :=
  carry * value a (Manpower.dv_workforce Manpower.dv) ((t - 1)%Z, s)
  + manpower_inflow - manpower_outflow
  - value a (Manpower.dv_workforce Manpower.dv) (t, s).

End manpower_balance_terms.

(** ** Optimal assignments *)

(** An optimal plan of the food model (a vertex found with exact rational
    arithmetic); its profit is 2911750/27, about 107842.59. *)
Definition food_optimum : assignment :=
  let dv := Food.dv in
  point
    [ (Food.dv_prod dv !! "Jan", 450);
      (Food.dv_prod dv !! "Feb", 450);
      (Food.dv_prod dv !! "Mar", 450);
      (Food.dv_prod dv !! "Apr", 450);
      (Food.dv_prod dv !! "May", 450);
      (Food.dv_prod dv !! "Jun", 450);
      (Food.dv_oil_buy dv !! ("Mar", "OIL3"), 750);
      (Food.dv_oil_buy dv !! ("Jun", "VEG1"), 17800 # 27);
      (Food.dv_oil_buy dv !! ("Jun", "VEG2"), 14600 # 27);
      (Food.dv_oil_buy dv !! ("Jun", "OIL2"), 750);
      (Food.dv_oil_consume dv !! ("Jan", "VEG1"), 100 # 9);
      (Food.dv_oil_consume dv !! ("Jan", "VEG2"), 1700 # 9);
      (Food.dv_oil_consume dv !! ("Jan", "OIL3"), 250);
      (Food.dv_oil_consume dv !! ("Feb", "VEG1"), 4300 # 27);
      (Food.dv_oil_consume dv !! ("Feb", "VEG2"), 1100 # 27);
      (Food.dv_oil_consume dv !! ("Feb", "OIL2"), 250);
      (Food.dv_oil_consume dv !! ("Mar", "VEG1"), 4300 # 27);
      (Food.dv_oil_consume dv !! ("Mar", "VEG2"), 1100 # 27);
      (Food.dv_oil_consume dv !! ("Mar", "OIL2"), 250);
      (Food.dv_oil_consume dv !! ("Apr", "VEG1"), 2300 # 27);
      (Food.dv_oil_consume dv !! ("Apr", "VEG2"), 3100 # 27);
      (Food.dv_oil_consume dv !! ("Apr", "OIL3"), 250);
      (Food.dv_oil_consume dv !! ("May", "VEG1"), 2300 # 27);
      (Food.dv_oil_consume dv !! ("May", "VEG2"), 3100 # 27);
      (Food.dv_oil_consume dv !! ("May", "OIL3"), 250);
      (Food.dv_oil_consume dv !! ("Jun", "VEG1"), 4300 # 27);
      (Food.dv_oil_consume dv !! ("Jun", "VEG2"), 1100 # 27);
      (Food.dv_oil_consume dv !! ("Jun", "OIL2"), 250);
      (Food.dv_oil_inventory dv !! ("Jan", "VEG1"), 4400 # 9);
      (Food.dv_oil_inventory dv !! ("Jan", "VEG2"), 2800 # 9);
      (Food.dv_oil_inventory dv !! ("Jan", "OIL1"), 500);
      (Food.dv_oil_inventory dv !! ("Jan", "OIL2"), 500);
      (Food.dv_oil_inventory dv !! ("Jan", "OIL3"), 250);
      (Food.dv_oil_inventory dv !! ("Feb", "VEG1"), 8900 # 27);
      (Food.dv_oil_inventory dv !! ("Feb", "VEG2"), 7300 # 27);
      (Food.dv_oil_inventory dv !! ("Feb", "OIL1"), 500);
      (Food.dv_oil_inventory dv !! ("Feb", "OIL2"), 250);
      (Food.dv_oil_inventory dv !! ("Feb", "OIL3"), 250);
      (Food.dv_oil_inventory dv !! ("Mar", "VEG1"), 4600 # 27);
      (Food.dv_oil_inventory dv !! ("Mar", "VEG2"), 6200 # 27);
      (Food.dv_oil_inventory dv !! ("Mar", "OIL1"), 500);
      (Food.dv_oil_inventory dv !! ("Mar", "OIL3"), 1000);
      (Food.dv_oil_inventory dv !! ("Apr", "VEG1"), 2300 # 27);
      (Food.dv_oil_inventory dv !! ("Apr", "VEG2"), 3100 # 27);
      (Food.dv_oil_inventory dv !! ("Apr", "OIL1"), 500);
      (Food.dv_oil_inventory dv !! ("Apr", "OIL3"), 750);
      (Food.dv_oil_inventory dv !! ("May", "OIL1"), 500);
      (Food.dv_oil_inventory dv !! ("May", "OIL3"), 500);
      (Food.dv_oil_inventory dv !! ("Jun", "VEG1"), 500);
      (Food.dv_oil_inventory dv !! ("Jun", "VEG2"), 500);
      (Food.dv_oil_inventory dv !! ("Jun", "OIL1"), 500);
      (Food.dv_oil_inventory dv !! ("Jun", "OIL2"), 500);
      (Food.dv_oil_inventory dv !! ("Jun", "OIL3"), 500) ].

(** A plan of the manpower model with the fewest layoffs: 53875/64, about
    841.8 over the three years. *)
Definition manpower_optimum : assignment :=
  let dv := Manpower.dv in
  point
    [ (Manpower.dv_hire dv !! (2%Z, "s2"), 800);
      (Manpower.dv_hire dv !! (2%Z, "s3"), 500);
      (Manpower.dv_hire dv !! (3%Z, "s2"), 800);
      (Manpower.dv_hire dv !! (3%Z, "s3"), 500);
      (Manpower.dv_part_time dv !! (1%Z, "s1"), 50);
      (Manpower.dv_part_time dv !! (1%Z, "s2"), 50);
      (Manpower.dv_part_time dv !! (1%Z, "s3"), 50);
      (Manpower.dv_part_time dv !! (2%Z, "s1"), 50);
      (Manpower.dv_part_time dv !! (2%Z, "s2"), 50);
      (Manpower.dv_part_time dv !! (2%Z, "s3"), 50);
      (Manpower.dv_part_time dv !! (3%Z, "s1"), 50);
      (Manpower.dv_part_time dv !! (3%Z, "s2"), 50);
      (Manpower.dv_part_time dv !! (3%Z, "s3"), 50);
      (Manpower.dv_workforce dv !! (1%Z, "s1"), 37025 # 32);
      (Manpower.dv_workforce dv !! (1%Z, "s2"), 46175 # 32);
      (Manpower.dv_workforce dv !! (1%Z, "s3"), 1025);
      (Manpower.dv_workforce dv !! (2%Z, "s1"), 675);
      (Manpower.dv_workforce dv !! (2%Z, "s2"), 2025);
      (Manpower.dv_workforce dv !! (2%Z, "s3"), 1525);
      (Manpower.dv_workforce dv !! (3%Z, "s1"), 175);
      (Manpower.dv_workforce dv !! (3%Z, "s2"), 2525);
      (Manpower.dv_workforce dv !! (3%Z, "s3"), 2025);
      (Manpower.dv_layoff dv !! (1%Z, "s1"), 14175 # 32);
      (Manpower.dv_layoff dv !! (2%Z, "s1"), 10645 # 64);
      (Manpower.dv_layoff dv !! (3%Z, "s1"), 465 # 2);
      (Manpower.dv_excess dv !! (1%Z, "s1"), 4225 # 32);
      (Manpower.dv_excess dv !! (1%Z, "s2"), 575 # 32);
      (Manpower.dv_excess dv !! (2%Z, "s1"), 150);
      (Manpower.dv_excess dv !! (3%Z, "s1"), 150);
      (Manpower.dv_train dv !! (1%Z, "s1", "s2"), 200);
      (Manpower.dv_train dv !! (1%Z, "s2", "s3"), 1025 # 4);
      (Manpower.dv_train dv !! (1%Z, "s3", "s2"), 2695 # 16);
      (Manpower.dv_train dv !! (2%Z, "s1", "s2"), 200);
      (Manpower.dv_train dv !! (2%Z, "s2", "s3"), 80125 # 336);
      (Manpower.dv_train dv !! (2%Z, "s3", "s2"), 168395 # 1344);
      (Manpower.dv_train dv !! (3%Z, "s1", "s2"), 200);
      (Manpower.dv_train dv !! (3%Z, "s2", "s3"), 6625 # 21);
      (Manpower.dv_train dv !! (3%Z, "s3", "s2"), 7285 # 42) ].

(** ** Model updates, for the loops that add constraints *)

(** The solver [s] with the constraints [cs] appended. *)
Definition with_constraints (s : Solver) (cs : list LinearConstraint) : Solver :=
  MkSolver (s_name s) (s_type s) (s_variables s) (s_constraints s ++ cs)
           (s_objective s).

(** The statement [m] either faults or appends exactly [n] constraints to
    the model and changes nothing else. *)
Definition adds (n : nat) (m : M ()) : Prop :=
  ∀ s, m s = None ∨
       ∃ cs, length cs = n ∧ m s = Some ((), with_constraints s cs).

(** The solver [s] with the variables [vs] appended. *)
Definition with_variables (s : Solver) (vs : list MPVariable) : Solver :=
  MkSolver (s_name s) (s_type s) (s_variables s ++ vs) (s_constraints s)
           (s_objective s).

(** The statement [m] either faults or appends exactly [n] variables to
    the model and changes nothing else. *)
Definition registers {A} (n : nat) (m : M A) : Prop :=
  ∀ s, m s = None ∨
       ∃ x vs, length vs = n ∧ m s = Some (x, with_variables s vs).

(** Every handle used by a constraint or by the objective of [m] is the
    handle of a variable registered in [m]. *)
Definition handles_registered (m : Solver) : Prop :=
  Forall (λ c, Forall (λ h, h < length (s_variables m))%nat
                 (constraint_handles c)) (s_constraints m) ∧
  Forall (λ h, h < length (s_variables m))%nat
    (match s_objective m with Some (_, e) => handles e | None => [] end).

(** * Properties *)

(** ** The boolean checks are sound *)

Lemma is_integerb_sound q : is_integerb q = true → is_integer q.
Proof.
  unfold is_integerb, is_integer. intros H%Pos.eqb_eq.
  exists (Qnum (Qred q)). rewrite <- (Qred_correct q) at 1.
  destruct (Qred q) as [n d]; simpl in *. subst d. reflexivity.
Qed.

Lemma within_boundsb_sound a h v :
  within_boundsb a h v = true → within_bounds a h v.
Proof.
  unfold within_boundsb, within_bounds.
  rewrite !andb_true_iff, !Qle_bool_iff. intros [[Hl Hu] Hi].
  repeat split; try assumption.
  intros Hint. rewrite Hint in Hi. by apply is_integerb_sound.
Qed.

Lemma holdsb_sound a c : holdsb a c = true → holds a c.
Proof.
  unfold holdsb, holds. destruct (c_rel c).
  - apply Qeq_bool_iff.
  - apply Qle_bool_iff.
  - apply Qle_bool_iff.
Qed.

Lemma feasibleb_sound m a : feasibleb m a = true → feasible m a.
Proof.
  unfold feasibleb, feasible. rewrite andb_true_iff, !forallb_forall.
  intros [Hv Hc]. split.
  - intros h v Hhv. apply within_boundsb_sound.
    apply (Hv (h, v)), list_elem_of_In, elem_of_lookup_imap. eauto.
  - intros c Hin. apply holdsb_sound, Hc. by apply list_elem_of_In.
Qed.

Lemma all_registeredb_sound {A} (f : A → option LinearConstraint) cons l :
  all_registeredb f cons l = true → all_registered f cons l.
Proof.
  unfold all_registeredb, all_registered.
  induction l as [|x l IH]; simpl; [constructor|].
  intros [Hx Hl]%andb_true_iff. constructor; [|by apply IH].
  destruct (f x) as [c|]; [|discriminate].
  exists c. split; [reflexivity|]. by apply bool_decide_eq_true in Hx.
Qed.

Lemma is_Some_true {A} (o : option A) :
  match o with Some _ => true | None => false end = true → is_Some o.
Proof. destruct o; [eauto | discriminate]. Qed.

(** ** The three builds end normally *)

Lemma factory_run_build_eq :
  Factory.run_build = Some (Factory.dv, Factory.model).
Proof.
  assert (H : is_Some Factory.run_build)
    by (apply is_Some_true; vm_compute; reflexivity).
  unfold Factory.dv, Factory.model.
  destruct Factory.run_build as [[d m]|]; [reflexivity | by destruct H].
Qed.

Lemma food_run_build_eq : Food.run_build = Some (Food.dv, Food.model).
Proof.
  assert (H : is_Some Food.run_build)
    by (apply is_Some_true; vm_compute; reflexivity).
  unfold Food.dv, Food.model.
  destruct Food.run_build as [[d m]|]; [reflexivity | by destruct H].
Qed.

Lemma manpower_run_build_eq :
  Manpower.run_build = Some (Manpower.dv, Manpower.model).
Proof.
  assert (H : is_Some Manpower.run_build)
    by (apply is_Some_true; vm_compute; reflexivity).
  unfold Manpower.dv, Manpower.model.
  destruct Manpower.run_build as [[d m]|]; [reflexivity | by destruct H].
Qed.

(** From here on the built dicts and models are only evaluated as a whole. *)
#[global] Opaque Factory.run_build Factory.dv Factory.model.
#[global] Opaque Food.run_build Food.dv Food.model.
#[global] Opaque Manpower.run_build Manpower.dv Manpower.model.

(** ** What the builds produce, on a few entries *)

Example factory_first_variable :
  s_variables Factory.model !! 0%nat
  = Some (MkVariable 0 1000000 false "manuf_('Jan', 'Prod1')").
Proof. vm_compute. reflexivity. Qed.

Example factory_sold_mar_prod3 :
  declared Factory.model (Factory.dv_sold Factory.dv) ("Mar", "Prod3")
    (MkVariable 0 0 false "sold_('Mar', 'Prod3')").
Proof. eexists. split; vm_compute; reflexivity. Qed.

Example factory_capacity_jan_vertDrill :
  Factory.capacity Factory.dv "Jan" "vertDrill"
  = Some (Constraint
            (EAdd (EMul 0.1 (EVar 0))
               (EAdd (EMul 0.2 (EVar 1))
                  (EAdd (EMul 0.3 (EVar 3))
                     (EAdd (EMul 0.6 (EVar 5)) (EConst 0)))))
            LE
            (EMul 384 (ESub (EConst 2) (EVar 127)))).
Proof. vm_compute. reflexivity. Qed.

Example manpower_initial_balance_s2 :
  Manpower.initial_balance Manpower.dv "s2"
  = Some (Constraint (EVar 19) EQ
            (ESub
               (EAdd
                  (EAdd (EAdd (EConst 1425.00) (EMul 0.80 (EVar 1)))
                     (EAdd (ESub (EMul 0.95 (EVar 46)) (EVar 48)) (EConst 0)))
                  (EAdd (ESub (EMul 0.50 (EVar 52)) (EVar 50)) (EConst 0)))
               (EVar 28))).
Proof. vm_compute. reflexivity. Qed.

Example manpower_train_name :
  v_name <$> s_variables Manpower.model !! 50%nat
  = Some "train_(1, 's2', 's3')".
Proof. vm_compute. reflexivity. Qed.

(** ** Feasibility gives every registered constraint and bound *)

Lemma feasible_holds m a c : feasible m a → c ∈ s_constraints m → holds a c.
Proof. intros [_ H]. apply H. Qed.

Lemma feasible_within_bounds m a h v :
  feasible m a → s_variables m !! h = Some v → within_bounds a h v.
Proof. intros [H _]. apply H. Qed.

Lemma factory_point_feasible : feasible Factory.model factory_point.
Proof. apply feasibleb_sound. vm_compute. reflexivity. Qed.

Lemma food_point_feasible : feasible Food.model food_point.
Proof. apply feasibleb_sound. vm_compute. reflexivity. Qed.

Lemma manpower_point_feasible : feasible Manpower.model manpower_point.
Proof. apply feasibleb_sound. vm_compute. reflexivity. Qed.

(** ** Terminal targets *)

Lemma factory_target_inv dv prd c :
  Factory.target dv prd = Some c →
  ∃ i, Factory.dv_inventory dv !! ("Jun", prd) = Some i ∧
       c = Constraint (EVar i) EQ (EConst (inject_Z Factory.inventory_target)).
Proof.
  unfold Factory.target. intros H.
  destruct (Factory.dv_inventory dv !! ("Jun", prd)) as [i|]; simplify_eq/=.
  eauto.
Qed.

Lemma food_target_inv dv ol c :
  Food.target dv ol = Some c →
  ∃ i, Food.dv_oil_inventory dv !! ("Jun", ol) = Some i ∧
       c = Constraint (EVar i) EQ
             (EConst (inject_Z Food.target_store_inventory)).
Proof.
  unfold Food.target. intros H.
  destruct (Food.dv_oil_inventory dv !! ("Jun", ol)) as [i|]; simplify_eq/=.
  eauto.
Qed.

Lemma factory_target_registered :
  all_registered (Factory.target Factory.dv) (s_constraints Factory.model)
    Factory.products.
Proof. apply all_registeredb_sound. vm_compute. reflexivity. Qed.

Lemma food_target_registered :
  all_registered (Food.target Food.dv) (s_constraints Food.model) Food.oils.
Proof. apply all_registeredb_sound. vm_compute. reflexivity. Qed.

(** C3. In every feasible assignment of the factory model the June
    inventory of every product is exactly 50, and in every feasible
    assignment of the food model the June inventory of every oil is
    exactly 500. *)
Theorem terminal_target_exact (a_factory a_food : assignment) :
  feasible Factory.model a_factory →
  feasible Food.model a_food →
  Forall (λ prd, has_value a_factory (Factory.dv_inventory Factory.dv)
                   ("Jun", prd) 50) Factory.products ∧
  Forall (λ ol, has_value a_food (Food.dv_oil_inventory Food.dv)
                  ("Jun", ol) 500) Food.oils.
Proof.
  intros Hfac Hfood. split.
  - eapply Forall_impl; [apply factory_target_registered|].
    intros prd (c & Hc & Hin).
    apply factory_target_inv in Hc as (i & Hi & ->).
    exists i. split; [assumption|].
    apply (feasible_holds _ _ _ Hfac Hin).
  - eapply Forall_impl; [apply food_target_registered|].
    intros ol (c & Hc & Hin).
    apply food_target_inv in Hc as (i & Hi & ->).
    exists i. split; [assumption|].
    apply (feasible_holds _ _ _ Hfood Hin).
Qed.

Lemma terminal_target_exact_witness :
  feasible Factory.model factory_point ∧
  feasible Food.model food_point ∧
  Forall (λ prd, has_value factory_point (Factory.dv_inventory Factory.dv)
                   ("Jun", prd) 50) Factory.products ∧
  Forall (λ ol, has_value food_point (Food.dv_oil_inventory Food.dv)
                  ("Jun", ol) 500) Food.oils.
Proof.
  assert (Hfac : feasible Factory.model factory_point)
    by (apply feasibleb_sound; vm_compute; reflexivity).
  assert (Hfood : feasible Food.model food_point)
    by (apply feasibleb_sound; vm_compute; reflexivity).
  split; [exact Hfac|]. split; [exact Hfood|].
  exact (terminal_target_exact factory_point food_point Hfac Hfood).
Defined.

(** ** Sums built by [model.Sum] over a generator *)

Lemma solution_value_Sum a es :
  solution_value a (Sum es) = Qsum (solution_value a <$> es).
Proof.
  induction es as [|e es IH]; [reflexivity|].
  change (solution_value a e + solution_value a (Sum es)
          = solution_value a e + Qsum (solution_value a <$> es)).
  by rewrite IH.
Qed.

Lemma mapM_solution_value {A} (f : A → option LinearExpr) (g : A → Q) a l es :
  mapM f l = Some es →
  (∀ x e, f x = Some e → solution_value a e = g x) →
  solution_value a <$> es = g <$> l.
Proof.
  intros Hm Hf. apply mapM_Some in Hm.
  induction Hm as [|x e l es Hx _ IH]; [reflexivity|].
  rewrite !fmap_cons. f_equal; [by apply Hf | exact IH].
Qed.

Lemma mapM_Sum_value {A} (f : A → option LinearExpr) (g : A → Q) a l es :
  mapM f l = Some es →
  (∀ x e, f x = Some e → solution_value a e = g x) →
  solution_value a (Sum es) = Qsum (g <$> l).
Proof.
  intros Hm Hf. rewrite solution_value_Sum.
  by rewrite (mapM_solution_value f g a l es Hm Hf).
Qed.

Lemma value_lookup `{Countable K} a (d : gmap K nat) k h :
  d !! k = Some h → value a d k = a h.
Proof. unfold value. by intros ->. Qed.

Lemma lookup_var_value `{Countable K} a (d : gmap K nat) k e :
  EVar <$> d !! k = Some e → solution_value a e = value a d k.
Proof.
  unfold value. destruct (d !! k) as [h|]; [|discriminate].
  by intros [= <-].
Qed.

Lemma has_value_intro `{Countable K} a (d : gmap K nat) k h :
  d !! k = Some h → has_value a d k (a h).
Proof. intros Hh. exists h. split; [assumption | reflexivity]. Qed.

Lemma registeredb_sound `{Countable K} {V} (d : gmap K V) keys :
  registeredb d keys = true → registered d keys.
Proof.
  unfold registeredb, registered. induction keys as [|k keys IH]; simpl.
  - constructor.
  - intros [Hk Hl]%andb_true_iff. constructor; [|by apply IH].
    by apply is_Some_true.
Qed.

Lemma declaredb_sound `{Countable K} m (d : gmap K nat) k v :
  declaredb m d k v = true → declared m d k v.
Proof.
  unfold declaredb, declared. destruct (d !! k) as [h|]; [|discriminate].
  intros Hv%bool_decide_eq_true. eauto.
Qed.

Lemma forallb_Forall {A} (P : A → Prop) (p : A → bool) l :
  (∀ x, p x = true → P x) → forallb p l = true → Forall P l.
Proof.
  intros HpP Hall. apply Forall_forall. intros x Hx.
  apply HpP. rewrite forallb_forall in Hall. by apply Hall, list_elem_of_In.
Qed.

Lemma elem_of_product {A B} (l1 : list A) (l2 : list B) x y :
  (x, y) ∈ product l1 l2 ↔ x ∈ l1 ∧ y ∈ l2.
Proof.
  unfold product. rewrite list_elem_of_bind. split.
  - intros (x' & Hy & Hx). apply list_elem_of_bind in Hy as (y' & Hxy & Hy).
    apply list_elem_of_singleton in Hxy. by simplify_eq.
  - intros [Hx Hy]. exists x. split; [|assumption].
    apply list_elem_of_bind. exists y. split; [|assumption].
    by apply list_elem_of_singleton.
Qed.

(** ** C5: downtime *)

Lemma factory_downtime_inv dv mach c :
  Factory.downtime dv mach = Some c →
  ∃ terms down,
    mapM (λ mth, EVar <$> Factory.dv_repair dv !! (mth, mach)) Factory.months
      = Some terms ∧
    Factory.machines_down !! mach = Some down ∧
    c = Constraint (Sum terms) EQ (EConst (inject_Z down)).
Proof.
  unfold Factory.downtime. intros H.
  destruct (mapM _ Factory.months) as [terms|]; simplify_eq/=.
  destruct (Factory.machines_down !! mach) as [down|]; simplify_eq/=.
  eauto.
Qed.

Lemma factory_downtime_registered :
  all_registered (Factory.downtime Factory.dv) (s_constraints Factory.model)
    Factory.machines.
Proof. apply all_registeredb_sound. vm_compute. reflexivity. Qed.

(** Every repair variable is an integer variable between 0 and the
    required downtime of its machine. *)
Lemma factory_repair_declared :
  Forall (λ '(mth, mach),
            ∃ down, Factory.machines_down !! mach = Some down ∧
              declared Factory.model (Factory.dv_repair Factory.dv)
                (mth, mach)
                (MkVariable 0 (inject_Z down) true
                   ("down_" +:+ mth +:+ "_" +:+ mach)))
         (product Factory.months Factory.machines).
Proof.
  apply (forallb_Forall _
    (λ '(mth, mach),
       match Factory.machines_down !! mach with
       | Some down =>
           declaredb Factory.model (Factory.dv_repair Factory.dv) (mth, mach)
             (MkVariable 0 (inject_Z down) true
                ("down_" +:+ mth +:+ "_" +:+ mach))
       | None => false
       end)); [|vm_compute; reflexivity].
  intros [mth mach] Hb.
  destruct (Factory.machines_down !! mach) as [down|]; [|discriminate].
  exists down. split; [reflexivity|]. by apply declaredb_sound.
Qed.

(** C5. In every feasible assignment of the factory model and for every
    machine type, the six monthly repair variables are integers and their
    sum equals the machine's entry of [machines_down]. *)
Theorem downtime_requirement_met (a : assignment) :
  feasible Factory.model a →
  Forall (λ mach,
            ∃ down, Factory.machines_down !! mach = Some down ∧
              Forall (λ mth, ∃ q, has_value a (Factory.dv_repair Factory.dv)
                                    (mth, mach) q ∧ is_integer q)
                     Factory.months ∧
              Qsum ((λ mth, value a (Factory.dv_repair Factory.dv) (mth, mach))
                      <$> Factory.months) == inject_Z down)
         Factory.machines.
Proof.
  intros Hfeas. apply Forall_forall. intros mach Hmach.
  pose proof factory_downtime_registered as Hreg.
  unfold all_registered in Hreg. rewrite Forall_forall in Hreg.
  destruct (Hreg mach Hmach) as (c & Hc & Hin).
  apply factory_downtime_inv in Hc.
  destruct Hc as (terms & down & Hterms & Hdown & ->).
  exists down. split; [assumption|]. split.
  - apply Forall_forall. intros mth Hmth.
    pose proof factory_repair_declared as Hdecl. rewrite Forall_forall in Hdecl.
    assert (Hpair : (mth, mach) ∈ product Factory.months Factory.machines).
    { apply elem_of_product. split; assumption. }
    destruct (Hdecl _ Hpair) as (down' & _ & h & Hh & Hv).
    exists (a h). split; [exact (has_value_intro _ _ _ _ Hh)|].
    destruct (feasible_within_bounds _ _ _ _ Hfeas Hv) as (_ & _ & Hint).
    apply Hint. reflexivity.
  - pose proof (feasible_holds _ _ _ Hfeas Hin) as Heq.
    unfold holds in Heq. cbn [c_rel c_lhs c_rhs solution_value] in Heq.
    rewrite <- Heq.
    erewrite mapM_Sum_value; [reflexivity | exact Hterms |].
    intros mth e He. cbv beta in He |- *. exact (lookup_var_value _ _ _ _ He).
Qed.

Lemma downtime_requirement_met_witness :
  feasible Factory.model factory_point ∧
  Forall (λ mach,
            ∃ down, Factory.machines_down !! mach = Some down ∧
              Forall (λ mth, ∃ q, has_value factory_point
                                    (Factory.dv_repair Factory.dv)
                                    (mth, mach) q ∧ is_integer q)
                     Factory.months ∧
              Qsum ((λ mth, value factory_point (Factory.dv_repair Factory.dv)
                              (mth, mach))
                      <$> Factory.months) == inject_Z down)
         Factory.machines.
Proof.
  assert (Hfac : feasible Factory.model factory_point)
    by (apply feasibleb_sound; vm_compute; reflexivity).
  split; [exact Hfac|].
  exact (downtime_requirement_met factory_point Hfac).
Defined.

(** ** C6: the forbidden retraining path *)

Lemma manpower_no_unskilled_to_skilled_inv dv t c :
  Manpower.no_unskilled_to_skilled dv t = Some c →
  ∃ x, Manpower.dv_train dv !! (t, "s1", "s3") = Some x ∧
       c = Constraint (EVar x) EQ (EConst 0).
Proof.
  unfold Manpower.no_unskilled_to_skilled.
  destruct (Manpower.dv_train dv !! (t, "s1", "s3")) as [x|]; [|discriminate].
  intros [= <-]. eauto.
Qed.

Lemma manpower_no_unskilled_to_skilled_registered :
  all_registered (Manpower.no_unskilled_to_skilled Manpower.dv)
    (s_constraints Manpower.model) Manpower.years.
Proof. apply all_registeredb_sound. vm_compute. reflexivity. Qed.

(** C6. In every feasible assignment of the manpower model the variable
    of the retraining path from s1 directly to s3 has value 0 in every
    year. *)
Theorem no_unskilled_to_skilled_flow (a : assignment) :
  feasible Manpower.model a →
  Forall (λ t, has_value a (Manpower.dv_train Manpower.dv) (t, "s1", "s3") 0)
         Manpower.years.
Proof.
  intros Hfeas.
  eapply Forall_impl; [apply manpower_no_unskilled_to_skilled_registered|].
  intros t (c & Hc & Hin).
  apply manpower_no_unskilled_to_skilled_inv in Hc.
  destruct Hc as (x & Hx & ->).
  exists x. split; [assumption|].
  exact (feasible_holds _ _ _ Hfeas Hin).
Qed.

Lemma no_unskilled_to_skilled_flow_witness :
  feasible Manpower.model manpower_point ∧
  Forall (λ t, has_value manpower_point (Manpower.dv_train Manpower.dv)
                 (t, "s1", "s3") 0)
         Manpower.years.
Proof.
  assert (Hman : feasible Manpower.model manpower_point)
    by (apply feasibleb_sound; vm_compute; reflexivity).
  split; [exact Hman|].
  exact (no_unskilled_to_skilled_flow manpower_point Hman).
Defined.

(** ** C9: demand *)

Lemma manpower_demand_met_inv dv t s c :
  Manpower.demand_met dv t s = Some c →
  ∃ w d x p,
    Manpower.dv_workforce dv !! (t, s) = Some w ∧
    Manpower.demand !! (t, s) = Some d ∧
    Manpower.dv_excess dv !! (t, s) = Some x ∧
    Manpower.dv_part_time dv !! (t, s) = Some p ∧
    c = Constraint (EVar w) EQ
          (EAdd (EAdd (EConst (inject_Z d)) (EVar x))
                (EMul Manpower.parttime_cap (EVar p))).
Proof.
  unfold Manpower.demand_met.
  destruct (Manpower.dv_workforce dv !! (t, s)) as [w|]; [|discriminate].
  destruct (Manpower.demand !! (t, s)) as [d|]; [|discriminate].
  destruct (Manpower.dv_excess dv !! (t, s)) as [x|]; [|discriminate].
  destruct (Manpower.dv_part_time dv !! (t, s)) as [p|]; [|discriminate].
  intros [= <-]. exists w, d, x, p. auto.
Qed.

Lemma manpower_demand_met_registered :
  all_registered (λ i, Manpower.demand_met Manpower.dv i.1 i.2)
    (s_constraints Manpower.model) Manpower.year_skill.
Proof. apply all_registeredb_sound. vm_compute. reflexivity. Qed.

Lemma manpower_excess_declared :
  Forall (λ i, declared Manpower.model (Manpower.dv_excess Manpower.dv) i
                 (MkVariable 0 1000000 false ("excess_" +:+ str_zs i)))
         Manpower.year_skill.
Proof.
  apply (forallb_Forall _ (λ i,
    declaredb Manpower.model (Manpower.dv_excess Manpower.dv) i
      (MkVariable 0 1000000 false ("excess_" +:+ str_zs i))));
    [|vm_compute; reflexivity].
  intros i. apply declaredb_sound.
Qed.

Lemma manpower_part_time_declared :
  Forall (λ i, declared Manpower.model (Manpower.dv_part_time Manpower.dv) i
                 (MkVariable 0 (inject_Z Manpower.max_parttime) false
                    ("part_time_" +:+ str_zs i)))
         Manpower.year_skill.
Proof.
  apply (forallb_Forall _ (λ i,
    declaredb Manpower.model (Manpower.dv_part_time Manpower.dv) i
      (MkVariable 0 (inject_Z Manpower.max_parttime) false
         ("part_time_" +:+ str_zs i))));
    [|vm_compute; reflexivity].
  intros i. apply declaredb_sound.
Qed.

(** A declared variable is at least its lower bound in a feasible
    assignment. *)
Lemma declared_lower_bound `{Countable K} m a (d : gmap K nat) k v h :
  feasible m a → declared m d k v → d !! k = Some h → v_lb v <= a h.
Proof.
  intros Hfeas (h' & Hh' & Hv) Hh.
  assert (h' = h) as -> by congruence.
  by destruct (feasible_within_bounds _ _ _ _ Hfeas Hv) as (Hlb & _).
Qed.

(** C9. In every feasible assignment of the manpower model, for every
    year and skill, workforce = demand + excess + 0.5 * part_time; excess
    and part-time are non-negative, so the workforce is never below the
    demand. *)
Theorem workforce_covers_demand (a : assignment) :
  feasible Manpower.model a →
  Forall (λ i, ∃ d w x p,
            Manpower.demand !! i = Some d ∧
            has_value a (Manpower.dv_workforce Manpower.dv) i w ∧
            has_value a (Manpower.dv_excess Manpower.dv) i x ∧
            has_value a (Manpower.dv_part_time Manpower.dv) i p ∧
            w == inject_Z d + x + 0.5 * p ∧
            0 <= x ∧ 0 <= p ∧ inject_Z d <= w)
         Manpower.year_skill.
Proof.
  intros Hfeas. apply Forall_forall. intros [t s] Hi.
  pose proof manpower_demand_met_registered as Hreg.
  pose proof manpower_excess_declared as Hex.
  pose proof manpower_part_time_declared as Hpt.
  unfold all_registered in Hreg. rewrite Forall_forall in Hreg, Hex, Hpt.
  destruct (Hreg _ Hi) as (c & Hc & Hin). cbn [fst snd] in Hc.
  apply manpower_demand_met_inv in Hc.
  destruct Hc as (w & d & x & p & Hw & Hd & Hx & Hp & ->).
  pose proof (feasible_holds _ _ _ Hfeas Hin) as Heq.
  unfold holds in Heq. cbn [c_rel c_lhs c_rhs solution_value] in Heq.
  pose proof (declared_lower_bound _ _ _ _ _ _ Hfeas (Hex _ Hi) Hx) as Hx0.
  pose proof (declared_lower_bound _ _ _ _ _ _ Hfeas (Hpt _ Hi) Hp) as Hp0.
  cbn [v_lb] in Hx0, Hp0.
  exists d, (a w), (a x), (a p).
  split; [assumption|].
  split; [exact (has_value_intro _ _ _ _ Hw)|].
  split; [exact (has_value_intro _ _ _ _ Hx)|].
  split; [exact (has_value_intro _ _ _ _ Hp)|].
  unfold Manpower.parttime_cap in Heq.
  repeat split; lra.
Qed.

Lemma workforce_covers_demand_witness :
  feasible Manpower.model manpower_point ∧
  Forall (λ i, ∃ d w x p,
            Manpower.demand !! i = Some d ∧
            has_value manpower_point (Manpower.dv_workforce Manpower.dv) i w ∧
            has_value manpower_point (Manpower.dv_excess Manpower.dv) i x ∧
            has_value manpower_point (Manpower.dv_part_time Manpower.dv) i p ∧
            w == inject_Z d + x + 0.5 * p ∧
            0 <= x ∧ 0 <= p ∧ inject_Z d <= w)
         Manpower.year_skill.
Proof.
  assert (Hman : feasible Manpower.model manpower_point)
    by (apply feasibleb_sound; vm_compute; reflexivity).
  split; [exact Hman|].
  exact (workforce_covers_demand manpower_point Hman).
Defined.

(** ** C4: blending *)

Lemma food_consumed_value dv a mth ols e :
  Food.consumed dv mth ols = Some e →
  solution_value a e
  = Qsum ((λ ol, value a (Food.dv_oil_consume dv) (mth, ol)) <$> ols).
Proof.
  unfold Food.consumed.
  destruct (mapM _ ols) as [terms|] eqn:Hterms; [|discriminate].
  intros [= <-]. eapply mapM_Sum_value; [exact Hterms|].
  intros ol e He. cbv beta in He |- *. exact (lookup_var_value _ _ _ _ He).
Qed.

Lemma food_weighted_hardness_value dv a mth e :
  Food.weighted_hardness dv mth = Some e →
  solution_value a e
  = Qsum ((λ ol, default 0 (Food.hardness !! ol)
                 * value a (Food.dv_oil_consume dv) (mth, ol)) <$> Food.oils).
Proof.
  unfold Food.weighted_hardness.
  destruct (mapM _ Food.oils) as [terms|] eqn:Hterms; [|discriminate].
  intros [= <-]. eapply mapM_Sum_value; [exact Hterms|].
  intros ol e. cbv beta. unfold value.
  destruct (Food.hardness !! ol) as [hd|]; [|discriminate].
  destruct (Food.dv_oil_consume dv !! (mth, ol)) as [c|]; [|discriminate].
  intros [= <-]. reflexivity.
Qed.

Lemma food_mass_conservation_inv dv mth c :
  Food.mass_conservation dv mth = Some c →
  ∃ e p, Food.consumed dv mth Food.oils = Some e ∧
         Food.dv_prod dv !! mth = Some p ∧
         c = Constraint e EQ (EVar p).
Proof.
  unfold Food.mass_conservation.
  destruct (Food.consumed dv mth Food.oils) as [e|]; [|discriminate].
  destruct (Food.dv_prod dv !! mth) as [p|]; [|discriminate].
  intros [= <-]. eauto.
Qed.

Lemma food_hardness_min_inv dv mth c :
  Food.hardness_min dv mth = Some c →
  ∃ e p, Food.weighted_hardness dv mth = Some e ∧
         Food.dv_prod dv !! mth = Some p ∧
         c = Constraint e GE (EMul (inject_Z Food.min_hardness) (EVar p)).
Proof.
  unfold Food.hardness_min.
  destruct (Food.weighted_hardness dv mth) as [e|]; [|discriminate].
  destruct (Food.dv_prod dv !! mth) as [p|]; [|discriminate].
  intros [= <-]. eauto.
Qed.

Lemma food_hardness_max_inv dv mth c :
  Food.hardness_max dv mth = Some c →
  ∃ e p, Food.weighted_hardness dv mth = Some e ∧
         Food.dv_prod dv !! mth = Some p ∧
         c = Constraint e LE (EMul (inject_Z Food.max_hardness) (EVar p)).
Proof.
  unfold Food.hardness_max.
  destruct (Food.weighted_hardness dv mth) as [e|]; [|discriminate].
  destruct (Food.dv_prod dv !! mth) as [p|]; [|discriminate].
  intros [= <-]. eauto.
Qed.

Lemma food_mass_conservation_registered :
  all_registered (Food.mass_conservation Food.dv) (s_constraints Food.model)
    Food.months.
Proof. apply all_registeredb_sound. vm_compute. reflexivity. Qed.

Lemma food_hardness_min_registered :
  all_registered (Food.hardness_min Food.dv) (s_constraints Food.model)
    Food.months.
Proof. apply all_registeredb_sound. vm_compute. reflexivity. Qed.

Lemma food_hardness_max_registered :
  all_registered (Food.hardness_max Food.dv) (s_constraints Food.model)
    Food.months.
Proof. apply all_registeredb_sound. vm_compute. reflexivity. Qed.

(** C4. In every feasible assignment of the food model and for every
    month: the oils consumed add up to the food produced, and the
    hardness-weighted sum of the oils consumed lies between 3 times and
    6 times the food produced.  Every oil has a hardness and every
    (month, oil) pair a consumption variable. *)
Theorem blend_within_tolerances (a : assignment) :
  feasible Food.model a →
  registered Food.hardness Food.oils ∧
  registered (Food.dv_oil_consume Food.dv) Food.month_oil ∧
  Forall (λ mth, ∃ p,
            has_value a (Food.dv_prod Food.dv) mth p ∧
            Qsum ((λ ol, value a (Food.dv_oil_consume Food.dv) (mth, ol))
                    <$> Food.oils) == p ∧
            3 * p <= Qsum ((λ ol, default 0 (Food.hardness !! ol)
                                  * value a (Food.dv_oil_consume Food.dv)
                                      (mth, ol)) <$> Food.oils) ∧
            Qsum ((λ ol, default 0 (Food.hardness !! ol)
                         * value a (Food.dv_oil_consume Food.dv) (mth, ol))
                    <$> Food.oils) <= 6 * p)
         Food.months.
Proof.
  intros Hfeas.
  split; [apply registeredb_sound; vm_compute; reflexivity|].
  split; [apply registeredb_sound; vm_compute; reflexivity|].
  apply Forall_forall. intros mth Hmth.
  pose proof food_mass_conservation_registered as Hmass.
  pose proof food_hardness_min_registered as Hmin.
  pose proof food_hardness_max_registered as Hmax.
  unfold all_registered in Hmass, Hmin, Hmax.
  rewrite Forall_forall in Hmass, Hmin, Hmax.
  destruct (Hmass _ Hmth) as (c1 & Hc1 & Hin1).
  destruct (Hmin _ Hmth) as (c2 & Hc2 & Hin2).
  destruct (Hmax _ Hmth) as (c3 & Hc3 & Hin3).
  apply food_mass_conservation_inv in Hc1.
  destruct Hc1 as (e1 & p & He1 & Hp & ->).
  apply food_hardness_min_inv in Hc2.
  destruct Hc2 as (e2 & p2 & He2 & Hp2 & ->).
  apply food_hardness_max_inv in Hc3.
  destruct Hc3 as (e3 & p3 & He3 & Hp3 & ->).
  assert (p2 = p) as -> by congruence.
  assert (p3 = p) as -> by congruence.
  pose proof (feasible_holds _ _ _ Hfeas Hin1) as H1.
  pose proof (feasible_holds _ _ _ Hfeas Hin2) as H2.
  pose proof (feasible_holds _ _ _ Hfeas Hin3) as H3.
  unfold holds in H1, H2, H3.
  cbn [c_rel c_lhs c_rhs solution_value] in H1, H2, H3.
  rewrite (food_consumed_value _ a _ _ _ He1) in H1.
  rewrite (food_weighted_hardness_value _ a _ _ He2) in H2.
  rewrite (food_weighted_hardness_value _ a _ _ He3) in H3.
  exists (a p). split; [exact (has_value_intro _ _ _ _ Hp)|].
  split; [exact H1|]. split; [exact H2 | exact H3].
Qed.

Lemma blend_within_tolerances_witness :
  feasible Food.model food_point ∧
  registered Food.hardness Food.oils ∧
  registered (Food.dv_oil_consume Food.dv) Food.month_oil ∧
  Forall (λ mth, ∃ p,
            has_value food_point (Food.dv_prod Food.dv) mth p ∧
            Qsum ((λ ol, value food_point (Food.dv_oil_consume Food.dv)
                           (mth, ol)) <$> Food.oils) == p ∧
            3 * p <= Qsum ((λ ol, default 0 (Food.hardness !! ol)
                                  * value food_point
                                      (Food.dv_oil_consume Food.dv)
                                      (mth, ol)) <$> Food.oils) ∧
            Qsum ((λ ol, default 0 (Food.hardness !! ol)
                         * value food_point (Food.dv_oil_consume Food.dv)
                             (mth, ol))
                    <$> Food.oils) <= 6 * p)
         Food.months.
Proof.
  assert (Hfood : feasible Food.model food_point)
    by (apply feasibleb_sound; vm_compute; reflexivity).
  split; [exact Hfood|].
  exact (blend_within_tolerances food_point Hfood).
Defined.

(** ** C7: sales caps *)

Lemma factory_sold_declared :
  Forall (λ i, ∃ cap, Factory.max_sales !! i = Some cap ∧
            declared Factory.model (Factory.dv_sold Factory.dv) i
              (MkVariable 0 (inject_Z cap) false ("sold_" +:+ str_ss i)))
         Factory.month_product.
Proof.
  apply (forallb_Forall _ (λ i,
    match Factory.max_sales !! i with
    | Some cap =>
        declaredb Factory.model (Factory.dv_sold Factory.dv) i
          (MkVariable 0 (inject_Z cap) false ("sold_" +:+ str_ss i))
    | None => false
    end)); [|vm_compute; reflexivity].
  intros i Hb. destruct (Factory.max_sales !! i) as [cap|]; [|discriminate].
  exists cap. split; [reflexivity|]. apply declaredb_sound, Hb.
Qed.

(** C7. The market-limit table has an entry for each of the 6 x 7
    (month, product) pairs, so registering the variables does not fault;
    every sold variable is declared continuous with bounds
    [0, max_sales[(month, product)]]; and in a feasible assignment every
    sold quantity lies within these bounds, hence is 0 where the cap is 0. *)
Theorem sold_within_market_cap (a : assignment) :
  feasible Factory.model a →
  length Factory.month_product = 42%nat ∧
  registered Factory.max_sales Factory.month_product ∧
  is_Some (Factory.register_variables
             (new_Solver "factory_planning_2" CBC_MIXED_INTEGER_PROGRAMMING)) ∧
  Forall (λ i, ∃ cap q,
            Factory.max_sales !! i = Some cap ∧
            declared Factory.model (Factory.dv_sold Factory.dv) i
              (MkVariable 0 (inject_Z cap) false ("sold_" +:+ str_ss i)) ∧
            has_value a (Factory.dv_sold Factory.dv) i q ∧
            0 <= q ∧ q <= inject_Z cap ∧
            (cap = 0%Z → q == 0))
         Factory.month_product.
Proof.
  intros Hfeas.
  split; [reflexivity|].
  split; [apply registeredb_sound; vm_compute; reflexivity|].
  split; [apply is_Some_true; vm_compute; reflexivity|].
  eapply Forall_impl; [apply factory_sold_declared|].
  intros i (cap & Hcap & Hdecl).
  destruct Hdecl as (h & Hh & Hv).
  destruct (feasible_within_bounds _ _ _ _ Hfeas Hv) as (Hlb & Hub & _).
  cbn [v_lb v_ub] in Hlb, Hub.
  exists cap, (a h).
  split; [assumption|].
  split; [exists h; split; assumption|].
  split; [exact (has_value_intro _ _ _ _ Hh)|].
  split; [assumption|]. split; [assumption|].
  intros ->. apply Qle_antisym; assumption.
Qed.

Lemma sold_within_market_cap_witness :
  feasible Factory.model factory_point ∧
  length Factory.month_product = 42%nat ∧
  registered Factory.max_sales Factory.month_product ∧
  is_Some (Factory.register_variables
             (new_Solver "factory_planning_2" CBC_MIXED_INTEGER_PROGRAMMING)) ∧
  Forall (λ i, ∃ cap q,
            Factory.max_sales !! i = Some cap ∧
            declared Factory.model (Factory.dv_sold Factory.dv) i
              (MkVariable 0 (inject_Z cap) false ("sold_" +:+ str_ss i)) ∧
            has_value factory_point (Factory.dv_sold Factory.dv) i q ∧
            0 <= q ∧ q <= inject_Z cap ∧
            (cap = 0%Z → q == 0))
         Factory.month_product.
Proof.
  assert (Hfac : feasible Factory.model factory_point)
    by (apply feasibleb_sound; vm_compute; reflexivity).
  split; [exact Hfac|].
  exact (sold_within_market_cap factory_point Hfac).
Defined.

(** ** C8: the report after the solve *)

Lemma factory_main_eq Solve :
  Factory.main Solve
  = Some (report Factory.model (Solve Factory.model) ++
          [ [VFormat "Problem solved in %d branch-and-bound nodes"
               (VInt (r_nodes (Solve Factory.model)))] ]).
Proof. unfold Factory.main. rewrite factory_run_build_eq. reflexivity. Qed.

Lemma food_main_eq Solve :
  Food.main Solve = Some (report Food.model (Solve Food.model)).
Proof. unfold Food.main. rewrite food_run_build_eq. reflexivity. Qed.

Lemma manpower_main_eq Solve :
  Manpower.main Solve = Some (report Manpower.model (Solve Manpower.model)).
Proof. unfold Manpower.main. rewrite manpower_run_build_eq. reflexivity. Qed.

Lemma factory_model_size :
  NumVariables Factory.model = 156%Z ∧ NumConstraints Factory.model = 84%Z.
Proof. split; vm_compute; reflexivity. Qed.

Lemma food_model_size :
  NumVariables Food.model = 96%Z ∧ NumConstraints Food.model = 65%Z.
Proof. split; vm_compute; reflexivity. Qed.

Lemma manpower_model_size :
  NumVariables Manpower.model = 72%Z ∧ NumConstraints Manpower.model = 30%Z.
Proof. split; vm_compute; reflexivity. Qed.

(** What a script prints between the solve and the problem size. *)
Lemma report_status_cases r :
  report_status r
  = match r_status r with
    | OPTIMAL =>
        [ [VStr "Solution:"];
          [VStr "Objective value ="; VFloat (r_objective_value r)] ]
    | INFEASIBLE | UNBOUNDED | NOT_SOLVED | OTHER_STATUS =>
        [ [VStr "The problem does not have an optimal solution."] ]
    end.
Proof. unfold report_status. destruct (r_status r); reflexivity. Qed.

(** C8. In each script, whatever status the single solve call returns,
    the output is: the status lines, then the problem-size lines, then the
    solver statistics.  The status lines are "Solution:" and the objective
    value when the status is optimal; for any other status they are the
    single fixed message, which contains "does not have an optimal
    solution", and nothing else.  The problem-size lines follow in both
    cases and carry the variable and constraint counts of the built
    model; the statistics after them do not depend on the status. *)
Theorem report_after_solve (Solve : Solver → SolveResult) :
  let expected (model : Solver) (n_vars n_cons : Z)
               (extra : SolveResult → stdout) : option stdout :=
    let result := Solve model in
    Some (match r_status result with
          | OPTIMAL =>
              [ [VStr "Solution:"];
                [VStr "Objective value =";
                 VFloat (r_objective_value result)] ]
          | INFEASIBLE | UNBOUNDED | NOT_SOLVED | OTHER_STATUS =>
              [ [VStr not_optimal_message] ]
          end
          ++ [ [VStr newline];
               [VStr "Problem size:"];
               [VStr "Number of decision variables ="; VInt n_vars];
               [VStr "Number of constraints ="; VInt n_cons] ]
          ++ [ [VStr newline];
               [VStr "Advanced usage:"];
               [VFormat "Problem solved in %s seconds"
                  (VFloat (inject_Z (r_wall_time result) / 1000))];
               [VFormat "Problem solved in %s iterations"
                  (VInt (r_iterations result))] ]
          ++ extra result) in
  not_optimal_message
    = "The problem " +:+ "does not have an optimal solution" +:+ "." ∧
  Factory.main Solve
    = expected Factory.model 156%Z 84%Z
        (λ r, [ [VFormat "Problem solved in %d branch-and-bound nodes"
                   (VInt (r_nodes r))] ]) ∧
  Food.main Solve = expected Food.model 96%Z 65%Z (λ _, []) ∧
  Manpower.main Solve = expected Manpower.model 72%Z 30%Z (λ _, []).
Proof.
  intros expected. subst expected. cbv beta zeta.
  destruct factory_model_size as [Hfv Hfc].
  destruct food_model_size as [Hov Hoc].
  destruct manpower_model_size as [Hmv Hmc].
  split; [reflexivity|]. split; [|split].
  - rewrite factory_main_eq. unfold report, report_size, report_advanced.
    rewrite report_status_cases, Hfv, Hfc, <- !app_assoc. reflexivity.
  - rewrite food_main_eq. unfold report, report_size, report_advanced.
    rewrite report_status_cases, Hov, Hoc, app_nil_r. reflexivity.
  - rewrite manpower_main_eq. unfold report, report_size, report_advanced.
    rewrite report_status_cases, Hmv, Hmc, app_nil_r. reflexivity.
Qed.

(** ** C1: balance equations of the later periods *)

Lemma constraint_in_model (c : LinearConstraint) (l : list LinearConstraint) :
  bool_decide (c ∈ l) = true → c ∈ l.
Proof. apply bool_decide_eq_true_1. Qed.

Lemma Qsum_cons x l : Qsum (x :: l) = x + Qsum l.
Proof. reflexivity. Qed.

Lemma Qsum_sub {A} (u v : A → Q) l :
  Qsum ((λ x, u x - v x) <$> l) == Qsum (u <$> l) - Qsum (v <$> l).
Proof.
  induction l as [|x l IH].
  - reflexivity.
  - rewrite !fmap_cons, !Qsum_cons, IH. ring.
Qed.

Lemma factory_balance_inv dv mth prd c :
  Factory.balance dv mth prd = Some c →
  ∃ k prev ip m s i,
    index mth Factory.months = Some k ∧
    getitem Factory.months (k - 1) = Some prev ∧
    Factory.dv_inventory dv !! (prev, prd) = Some ip ∧
    Factory.dv_manufacture dv !! (mth, prd) = Some m ∧
    Factory.dv_sold dv !! (mth, prd) = Some s ∧
    Factory.dv_inventory dv !! (mth, prd) = Some i ∧
    c = Constraint (EAdd (EVar ip) (EVar m)) EQ (EAdd (EVar s) (EVar i)).
Proof.
  unfold Factory.balance.
  destruct (index mth Factory.months) as [k|]; [|discriminate].
  cbn [mbind option_bind].
  destruct (getitem Factory.months (k - 1)) as [prev|] eqn:Hprev;
    [|discriminate].
  cbn [mbind option_bind].
  destruct (Factory.dv_inventory dv !! (prev, prd)) as [ip|] eqn:Hip;
    [|discriminate].
  destruct (Factory.dv_manufacture dv !! (mth, prd)) as [m|] eqn:Hm;
    [|discriminate].
  destruct (Factory.dv_sold dv !! (mth, prd)) as [s|]; [|discriminate].
  destruct (Factory.dv_inventory dv !! (mth, prd)) as [i|] eqn:Hi;
    [|discriminate].
  intros [= <-]. exists k, prev, ip, m, s, i. auto 10.
Qed.

Lemma food_balance_inv dv prev mth ol c :
  Food.balance dv prev mth ol = Some c →
  ∃ ip b cn i,
    Food.dv_oil_inventory dv !! (prev, ol) = Some ip ∧
    Food.dv_oil_buy dv !! (mth, ol) = Some b ∧
    Food.dv_oil_consume dv !! (mth, ol) = Some cn ∧
    Food.dv_oil_inventory dv !! (mth, ol) = Some i ∧
    c = Constraint (EAdd (EVar ip) (EVar b)) EQ (EAdd (EVar cn) (EVar i)).
Proof.
  unfold Food.balance.
  destruct (Food.dv_oil_inventory dv !! (prev, ol)) as [ip|]; [|discriminate].
  destruct (Food.dv_oil_buy dv !! (mth, ol)) as [b|]; [|discriminate].
  destruct (Food.dv_oil_consume dv !! (mth, ol)) as [cn|]; [|discriminate].
  destruct (Food.dv_oil_inventory dv !! (mth, ol)) as [i|]; [|discriminate].
  intros [= <-]. exists ip, b, cn, i. auto.
Qed.

(** For a month after the first, the month the loops compute as
    [months[months.index(mth) - 1]] is the one just before it. *)
Lemma factory_previous_month mth k prev :
  mth ∈ drop 1 Factory.months →
  index mth Factory.months = Some k →
  getitem Factory.months (k - 1) = Some prev →
  previous Factory.months mth = Some prev.
Proof.
  intros Hmth. cbn in Hmth.
  repeat (apply elem_of_cons in Hmth as [->|Hmth]);
    [..|by apply elem_of_nil in Hmth];
    intros [= <-]; intros [= <-]; reflexivity.
Qed.

Lemma food_previous_month mth prev :
  mth ∈ drop 1 Food.months →
  Food.prev_month mth = Some prev →
  previous Food.months mth = Some prev.
Proof.
  intros Hmth. cbn in Hmth.
  repeat (apply elem_of_cons in Hmth as [->|Hmth]);
    [..|by apply elem_of_nil in Hmth];
    intros [= <-]; reflexivity.
Qed.

Lemma factory_balance_registered :
  all_registered (λ i, Factory.balance Factory.dv i.1 i.2)
    (s_constraints Factory.model)
    (product (drop 1 Factory.months) Factory.products).
Proof. apply all_registeredb_sound. vm_compute. reflexivity. Qed.

Lemma food_balance_registered :
  all_registered food_later_balance (s_constraints Food.model)
    (product (drop 1 Food.months) Food.oils).
Proof. apply all_registeredb_sound. vm_compute. reflexivity. Qed.

Lemma food_later_balance_inv mth ol c :
  food_later_balance (mth, ol) = Some c →
  ∃ prev, Food.prev_month mth = Some prev ∧
          Food.balance Food.dv prev mth ol = Some c.
Proof.
  unfold food_later_balance. cbn [fst snd]. generalize Food.dv. intros dv.
  destruct (Food.prev_month mth) as [prev|]; [|discriminate].
  intros Hc. exists prev. split; [reflexivity | exact Hc].
Qed.

Lemma manpower_balance_registered :
  all_registered (λ i, Manpower.balance Manpower.dv i.1 i.2)
    (s_constraints Manpower.model)
    (product (drop 1 Manpower.years) Manpower.skills).
Proof. apply all_registeredb_sound. vm_compute. reflexivity. Qed.

Lemma manpower_transfers_value dv a t s keep sel e :
  Manpower.transfers dv t s keep sel = Some e →
  solution_value a e
  == Qsum ((λ s2, keep * value a (Manpower.dv_train dv) (t, s2, s))
             <$> filter (λ s2, sel s2 = true) Manpower.skills)
     - Qsum ((λ s2, value a (Manpower.dv_train dv) (t, s, s2))
               <$> filter (λ s2, sel s2 = true) Manpower.skills).
Proof.
  unfold Manpower.transfers.
  destruct (mapM _ _) as [terms|] eqn:Hterms; [|discriminate].
  intros [= <-]. rewrite <- Qsum_sub.
  erewrite mapM_Sum_value; [reflexivity | exact Hterms |].
  intros s2 e. cbv beta. unfold value.
  destruct (Manpower.dv_train dv !! (t, s2, s)) as [t_in|]; [|discriminate].
  destruct (Manpower.dv_train dv !! (t, s, s2)) as [t_out|]; [|discriminate].
  intros [= <-]. reflexivity.
Qed.

Lemma manpower_balance_rhs_value a carried t s rhs :
  Manpower.balance_rhs Manpower.dv carried t s = Some rhs →
  solution_value a rhs
  == solution_value a carried + manpower_inflow a t s - manpower_outflow a t s.
Proof.
  unfold Manpower.balance_rhs, manpower_inflow, manpower_outflow.
  unfold lower_skills, higher_skills.
  generalize Manpower.dv. intros dv.
  destruct (Manpower.experienced_attrition !! s) as [ea|]; [|discriminate].
  destruct (Manpower.new_hire_attrition !! s) as [nha|]; [|discriminate].
  cbn [mbind option_bind default].
  destruct (Manpower.dv_hire dv !! (t, s)) as [h|] eqn:Hh; [|discriminate].
  cbn [mbind option_bind].
  destruct (Manpower.transfers dv t s (1 - ea) _) as [up|] eqn:Hup;
    [|discriminate].
  cbn [mbind option_bind].
  destruct (Manpower.transfers dv t s
              (1 - Manpower.downgrade_skill_attrition) _)
    as [down|] eqn:Hdown; [|discriminate].
  cbn [mbind option_bind].
  destruct (Manpower.dv_layoff dv !! (t, s)) as [l|] eqn:Hl; [|discriminate].
  intros [= <-]. cbn [solution_value].
  rewrite (manpower_transfers_value _ a _ _ _ _ _ Hup).
  rewrite (manpower_transfers_value _ a _ _ _ _ _ Hdown).
  rewrite (value_lookup _ _ _ _ Hh), (value_lookup _ _ _ _ Hl).
  unfold id. ring.
Qed.

Lemma manpower_balance_inv dv t s c :
  Manpower.balance dv t s = Some c →
  ∃ w ea wp rhs,
    Manpower.dv_workforce dv !! (t, s) = Some w ∧
    Manpower.experienced_attrition !! s = Some ea ∧
    Manpower.dv_workforce dv !! ((t - 1)%Z, s) = Some wp ∧
    Manpower.balance_rhs dv (EMul (1 - ea) (EVar wp)) t s = Some rhs ∧
    c = Constraint (EVar w) EQ rhs.
Proof.
  unfold Manpower.balance.
  destruct (Manpower.dv_workforce dv !! (t, s)) as [w|]; [|discriminate].
  destruct (Manpower.experienced_attrition !! s) as [ea|]; [|discriminate].
  cbn [mbind option_bind].
  destruct (Manpower.dv_workforce dv !! ((t - 1)%Z, s)) as [wp|];
    [|discriminate].
  cbn [mbind option_bind].
  destruct (Manpower.balance_rhs dv _ t s) as [rhs|] eqn:Hrhs; [|discriminate].
  intros [= <-]. exists w, ea, wp, rhs. auto.
Qed.

(** C1 (as amended). In every feasible assignment and for every period
    after the first: in the factory model, last month's inventory plus
    production equals sales plus this month's inventory, for every
    product; in the food model, last month's inventory plus purchases
    equals consumption plus this month's inventory, for every oil; in
    the manpower model, the part of last year's workforce that stays,
    (1 - experienced_attrition[s]) times that workforce, plus the inflow
    (surviving hires and surviving retrained workers) equals the outflow
    (layoffs and transfers out) plus this year's workforce, for every
    skill.  The difference is 0 in each case. *)
Theorem balance_conservation (a_factory a_food a_manpower : assignment) :
  feasible Factory.model a_factory →
  feasible Food.model a_food →
  feasible Manpower.model a_manpower →
  Forall (λ '(mth, prd), ∃ prev ip m s i,
            previous Factory.months mth = Some prev ∧
            has_value a_factory (Factory.dv_inventory Factory.dv) (prev, prd) ip ∧
            has_value a_factory (Factory.dv_manufacture Factory.dv) (mth, prd) m ∧
            has_value a_factory (Factory.dv_sold Factory.dv) (mth, prd) s ∧
            has_value a_factory (Factory.dv_inventory Factory.dv) (mth, prd) i ∧
            ip + m - s - i == 0)
         (product (drop 1 Factory.months) Factory.products) ∧
  Forall (λ '(mth, ol), ∃ prev ip b c i,
            previous Food.months mth = Some prev ∧
            has_value a_food (Food.dv_oil_inventory Food.dv) (prev, ol) ip ∧
            has_value a_food (Food.dv_oil_buy Food.dv) (mth, ol) b ∧
            has_value a_food (Food.dv_oil_consume Food.dv) (mth, ol) c ∧
            has_value a_food (Food.dv_oil_inventory Food.dv) (mth, ol) i ∧
            ip + b - c - i == 0)
         (product (drop 1 Food.months) Food.oils) ∧
  registered (Manpower.dv_workforce Manpower.dv) Manpower.year_skill ∧
  registered (Manpower.dv_hire Manpower.dv) Manpower.year_skill ∧
  registered (Manpower.dv_layoff Manpower.dv) Manpower.year_skill ∧
  registered (Manpower.dv_train Manpower.dv) Manpower.year_skill_skill ∧
  registered Manpower.new_hire_attrition Manpower.skills ∧
  Forall (λ '(t, s), ∃ ea,
            Manpower.experienced_attrition !! s = Some ea ∧
            manpower_balance_residual a_manpower t s (1 - ea) == 0)
         (product (drop 1 Manpower.years) Manpower.skills).
Proof.
  intros Hfac Hfood Hman.
  split; [|split].
  - apply Forall_forall. intros [mth prd] Hi.
    pose proof factory_balance_registered as Hreg.
    unfold all_registered in Hreg. rewrite Forall_forall in Hreg.
    destruct (Hreg _ Hi) as (c & Hc & Hin). cbn [fst snd] in Hc.
    apply factory_balance_inv in Hc.
    destruct Hc as (k & prev & ip & m & s & i & Hk & Hprev & Hip & Hm & Hs
                    & Hinv & ->).
    apply elem_of_product in Hi as [Hmth _].
    exists prev, (a_factory ip), (a_factory m), (a_factory s), (a_factory i).
    split; [exact (factory_previous_month _ _ _ Hmth Hk Hprev)|].
    split; [exact (has_value_intro _ _ _ _ Hip)|].
    split; [exact (has_value_intro _ _ _ _ Hm)|].
    split; [exact (has_value_intro _ _ _ _ Hs)|].
    split; [exact (has_value_intro _ _ _ _ Hinv)|].
    pose proof (feasible_holds _ _ _ Hfac Hin) as Heq.
    unfold holds in Heq. cbn [c_rel c_lhs c_rhs solution_value] in Heq.
    rewrite Heq. ring.
  - apply Forall_forall. intros [mth ol] Hi.
    pose proof food_balance_registered as Hreg.
    unfold all_registered in Hreg. rewrite Forall_forall in Hreg.
    destruct (Hreg _ Hi) as (c & Hc & Hin).
    apply food_later_balance_inv in Hc. destruct Hc as (prev & Hprev & Hc).
    apply food_balance_inv in Hc.
    destruct Hc as (ip & b & cn & i & Hip & Hb & Hcn & Hinv & ->).
    apply elem_of_product in Hi as [Hmth _].
    exists prev, (a_food ip), (a_food b), (a_food cn), (a_food i).
    split; [exact (food_previous_month _ _ Hmth Hprev)|].
    split; [exact (has_value_intro _ _ _ _ Hip)|].
    split; [exact (has_value_intro _ _ _ _ Hb)|].
    split; [exact (has_value_intro _ _ _ _ Hcn)|].
    split; [exact (has_value_intro _ _ _ _ Hinv)|].
    pose proof (feasible_holds _ _ _ Hfood Hin) as Heq.
    unfold holds in Heq. cbn [c_rel c_lhs c_rhs solution_value] in Heq.
    rewrite Heq. ring.
  - do 5 (split; [apply registeredb_sound; vm_compute; reflexivity|]).
    apply Forall_forall. intros [t s] Hi.
    pose proof manpower_balance_registered as Hreg.
    unfold all_registered in Hreg. rewrite Forall_forall in Hreg.
    destruct (Hreg _ Hi) as (c & Hc & Hin). cbn [fst snd] in Hc.
    apply manpower_balance_inv in Hc.
    destruct Hc as (w & ea & wp & rhs & Hw & Hea & Hwp & Hrhs & ->).
    exists ea. split; [assumption|].
    pose proof (feasible_holds _ _ _ Hman Hin) as Heq.
    unfold holds in Heq. cbn [c_rel c_lhs c_rhs solution_value] in Heq.
    rewrite (manpower_balance_rhs_value a_manpower _ _ _ _ Hrhs) in Heq.
    cbn [solution_value] in Heq.
    unfold manpower_balance_residual.
    rewrite (value_lookup _ _ _ _ Hw), (value_lookup _ _ _ _ Hwp).
    rewrite Heq. ring.
Qed.

Lemma balance_conservation_witness :
  feasible Factory.model factory_point ∧
  feasible Food.model food_point ∧
  feasible Manpower.model manpower_point ∧
  Forall (λ '(t, s), ∃ ea,
            Manpower.experienced_attrition !! s = Some ea ∧
            manpower_balance_residual manpower_point t s (1 - ea) == 0)
         (product (drop 1 Manpower.years) Manpower.skills).
Proof.
  assert (Hfac : feasible Factory.model factory_point)
    by (apply feasibleb_sound; vm_compute; reflexivity).
  assert (Hfood : feasible Food.model food_point)
    by (apply feasibleb_sound; vm_compute; reflexivity).
  assert (Hman : feasible Manpower.model manpower_point)
    by (apply feasibleb_sound; vm_compute; reflexivity).
  split; [exact Hfac|]. split; [exact Hfood|]. split; [exact Hman|].
  exact (proj2 (proj2 (proj2 (proj2 (proj2 (proj2 (proj2
    (balance_conservation factory_point food_point manpower_point
       Hfac Hfood Hman)))))))).
Defined.

(** C1 as stated fails in the manpower model: with last year's workforce
    carried over whole, the balance of the unskilled workers of year 2 is
    off by 100 at a feasible assignment (the 10% of the 1000 workers of
    year 1 who leave). *)
Lemma balance_as_stated_fails_for_manpower :
  feasible Manpower.model manpower_point ∧
  manpower_balance_residual manpower_point 2 "s1" 1 == 100 ∧
  ¬ manpower_balance_residual manpower_point 2 "s1" 1 == 0.
Proof.
  split; [apply feasibleb_sound; vm_compute; reflexivity|].
  split; [vm_compute; reflexivity|].
  intros H. vm_compute in H. discriminate H.
Qed.

(** ** C2: the first period and the chaining of the later ones *)

Lemma handles_subset (l1 l2 : list nat) :
  bool_decide (l1 ⊆ l2) = true → l1 ⊆ l2.
Proof. apply bool_decide_eq_true_1. Qed.

(** Replace the list of a [Forall] goal by its elements and split it. *)
Ltac forall_cases :=
  match goal with
  | |- Forall _ ?l =>
      let l' := eval vm_compute in l in
      change l with l'
  end;
  repeat first [apply Forall_nil_2 | apply Forall_cons_2];
  cbv beta iota.

(** Close one conjunct about a constraint that has been computed. *)
Ltac by_evaluation :=
  first
    [ apply constraint_in_model; vm_compute; reflexivity
    | apply handles_subset; vm_compute; reflexivity
    | let H := fresh in
      intros [H _]; vm_compute in H; discriminate H
    | let H := fresh in
      intros [_ H]; vm_compute in H; discriminate H
    | vm_compute; reflexivity ].

(** C2 (as amended). The balance constraint of the first period mentions
    variables of the first period only.  In the food model it is seeded
    from the constant [init_store_inventory], in the manpower model from
    the constant (1 - experienced_attrition[s]) * current_workforce[s];
    in the factory model it has no constant at all (production = sales +
    inventory).  Every balance constraint of a later period t has no
    constant, contains the carried variable of period t-1 (inventory, or
    workforce with coefficient 1 - experienced_attrition[s]) and otherwise
    only variables of periods t-1 and t. *)
Theorem first_period_and_chaining :
  Forall (λ prd, ∃ c,
            Factory.initial_balance Factory.dv prd = Some c ∧
            c ∈ s_constraints Factory.model ∧
            constraint_handles c ⊆ factory_period_variables "Jan" ∧
            constant_part (c_lhs c) == 0 ∧ constant_part (c_rhs c) == 0)
         Factory.products ∧
  Forall (λ ol, ∃ c,
            Food.initial_balance Food.dv ol = Some c ∧
            c ∈ s_constraints Food.model ∧
            constraint_handles c ⊆ food_period_variables "Jan" ∧
            seeded_from_constant c ∧
            constant_part (c_lhs c) == inject_Z Food.init_store_inventory ∧
            constant_part (c_rhs c) == 0)
         Food.oils ∧
  Forall (λ s, ∃ c ea cw,
            Manpower.initial_balance Manpower.dv s = Some c ∧
            c ∈ s_constraints Manpower.model ∧
            Manpower.experienced_attrition !! s = Some ea ∧
            Manpower.current_workforce !! s = Some cw ∧
            constraint_handles c ⊆ manpower_period_variables 1 ∧
            seeded_from_constant c ∧
            constant_part (c_lhs c) == 0 ∧
            constant_part (c_rhs c) == (1 - ea) * inject_Z cw)
         Manpower.skills ∧
  Forall (λ '(mth, prd), ∃ c prev ip,
            Factory.balance Factory.dv mth prd = Some c ∧
            c ∈ s_constraints Factory.model ∧
            previous Factory.months mth = Some prev ∧
            Factory.dv_inventory Factory.dv !! (prev, prd) = Some ip ∧
            coefficient ip (c_lhs c) == 1 ∧
            coefficient ip (c_rhs c) == 0 ∧
            constant_part (c_lhs c) == 0 ∧ constant_part (c_rhs c) == 0 ∧
            constraint_handles c
              ⊆ factory_period_variables prev ++ factory_period_variables mth)
         (product (drop 1 Factory.months) Factory.products) ∧
  Forall (λ '(mth, ol), ∃ c prev ip,
            food_later_balance (mth, ol) = Some c ∧
            c ∈ s_constraints Food.model ∧
            previous Food.months mth = Some prev ∧
            Food.dv_oil_inventory Food.dv !! (prev, ol) = Some ip ∧
            coefficient ip (c_lhs c) == 1 ∧
            coefficient ip (c_rhs c) == 0 ∧
            constant_part (c_lhs c) == 0 ∧ constant_part (c_rhs c) == 0 ∧
            constraint_handles c
              ⊆ food_period_variables prev ++ food_period_variables mth)
         (product (drop 1 Food.months) Food.oils) ∧
  Forall (λ '(t, s), ∃ c ea wp,
            Manpower.balance Manpower.dv t s = Some c ∧
            c ∈ s_constraints Manpower.model ∧
            Manpower.experienced_attrition !! s = Some ea ∧
            Manpower.dv_workforce Manpower.dv !! ((t - 1)%Z, s) = Some wp ∧
            coefficient wp (c_lhs c) == 0 ∧
            coefficient wp (c_rhs c) == 1 - ea ∧
            constant_part (c_lhs c) == 0 ∧ constant_part (c_rhs c) == 0 ∧
            constraint_handles c
              ⊆ manpower_period_variables (t - 1)
                ++ manpower_period_variables t)
         (product (drop 1 Manpower.years) Manpower.skills).
Proof.
  split; [|split; [|split; [|split; [|split]]]].
  - forall_cases;
      (eexists; split; [vm_compute; reflexivity|]; repeat split; by_evaluation).
  - forall_cases;
      (eexists; split; [vm_compute; reflexivity|]; repeat split; by_evaluation).
  - forall_cases;
      (eexists _, _, _; split; [vm_compute; reflexivity|];
       split; [by_evaluation|];
       split; [vm_compute; reflexivity|];
       split; [vm_compute; reflexivity|];
       repeat split; by_evaluation).
  - forall_cases;
      (eexists _, _, _; split; [vm_compute; reflexivity|];
       split; [by_evaluation|];
       split; [vm_compute; reflexivity|];
       split; [vm_compute; reflexivity|];
       repeat split; by_evaluation).
  - forall_cases;
      (eexists _, _, _; split; [vm_compute; reflexivity|];
       split; [by_evaluation|];
       split; [vm_compute; reflexivity|];
       split; [vm_compute; reflexivity|];
       repeat split; by_evaluation).
  - forall_cases;
      (eexists _, _, _; split; [vm_compute; reflexivity|];
       split; [by_evaluation|];
       split; [vm_compute; reflexivity|];
       split; [vm_compute; reflexivity|];
       repeat split; by_evaluation).
Qed.

(** C2 as stated fails in the factory model: the January balance of
    Prod1 is [manufacture == sold + inventory] over the three January
    variables, with no constant on either side. *)
Lemma factory_first_period_not_seeded :
  ∃ c, Factory.initial_balance Factory.dv "Prod1" = Some c ∧
       c ∈ s_constraints Factory.model ∧
       c = Constraint (EVar 0) EQ (EAdd (EVar 84) (EVar 42)) ∧
       ¬ seeded_from_constant c.
Proof.
  eexists. split; [vm_compute; reflexivity|].
  split; [apply constraint_in_model; vm_compute; reflexivity|].
  split; [reflexivity|].
  intros Hseed. apply Hseed. split; reflexivity.
Qed.

(** ** Optimal values of the linear programs *)

Lemma feasible_Forall m a :
  feasible m a →
  Forall (holds a) (s_constraints m) ∧
  Forall (λ hv, within_bounds a hv.1 hv.2) (imap pair (s_variables m)).
Proof.
  intros [Hb Hc]. split.
  - apply Forall_forall. exact Hc.
  - apply Forall_forall. intros [h v] Hin.
    apply elem_of_lookup_imap in Hin as (i & y & [= -> ->] & Hy).
    exact (Hb _ _ Hy).
Qed.

(** Turn the feasibility of [a] for a built model into one hypothesis per
    constraint and per bound, and the objective into its expression. *)
Ltac explicit_program model :=
  match goal with
  | H : feasible model _ |- _ =>
      let Hc := fresh "Hc" in
      let Hb := fresh "Hb" in
      let Ec := fresh "Ec" in
      let Ev := fresh "Ev" in
      let Eo := fresh "Eo" in
      apply feasible_Forall in H as [Hc Hb];
      assert (Ec : s_constraints model
                   = ltac:(let l := eval vm_compute in (s_constraints model) in
                           exact l))
        by (vm_compute; reflexivity);
      assert (Ev : imap pair (s_variables model)
                   = ltac:(let l := eval vm_compute in
                                      (imap pair (s_variables model)) in
                           exact l))
        by (vm_compute; reflexivity);
      assert (Eo : s_objective model
                   = ltac:(let l := eval vm_compute in (s_objective model) in
                           exact l))
        by (vm_compute; reflexivity);
      unfold objective_of; rewrite Eo; clear Eo;
      rewrite Ec in Hc; clear Ec; rewrite Ev in Hb; clear Ev;
      repeat (apply Forall_cons_1 in Hc as [? Hc]); clear Hc;
      repeat (apply Forall_cons_1 in Hb as [[? [? _]] Hb]); clear Hb;
      unfold holds in *;
      cbn [c_rel c_lhs c_rhs solution_value fst snd v_lb v_ub] in *
  end.

(** No feasible plan of the food model earns more than 2911750/27. *)
Lemma food_profit_bound a :
  feasible Food.model a → objective_of Food.model a <= 2911750 # 27.
Proof. intros Hfeas. explicit_program Food.model. lra. Qed.


Lemma food_direction :
  ∃ e, s_objective Food.model = Some (MAXIMIZE, e).
Proof. eexists. vm_compute. reflexivity. Qed.


Lemma food_optimum_optimal : optimal Food.model food_optimum.
Proof.
  split; [apply feasibleb_sound; vm_compute; reflexivity|].
  intros a' Hfeas. unfold at_least_as_good.
  destruct food_direction as [e ->].
  assert (Hval : objective_of Food.model food_optimum == 2911750 # 27)
    by (vm_compute; reflexivity).
  rewrite Hval. by apply food_profit_bound.
Qed.



(** * Further properties of the scripts *)

(** ** The variable registry: dict comprehensions over [NumVar] / [IntVar] *)

(** The solver [s] with the variables [vs] appended. *)
Lemma add_variable_run v s :
  add_variable v s
  = Some (length (s_variables s),
          MkSolver (s_name s) (s_type s) (s_variables s ++ [v])
                   (s_constraints s) (s_objective s)).
Proof. reflexivity. Qed.

Lemma dict_comp_spec `{Countable K} (decl : K → option MPVariable)
    (value : K → M nat) (keys : list K) :
  (∀ i s', value i s' = (lift (decl i) ≫= add_variable) s') →
  ∀ vs, Forall2 (λ i v, decl i = Some v) keys vs →
  NoDup keys →
  ∀ acc s, ∃ d,
    dict_comp keys value acc s
    = Some (d, MkSolver (s_name s) (s_type s) (s_variables s ++ vs)
                        (s_constraints s) (s_objective s)) ∧
    (∀ j i, keys !! j = Some i →
            d !! i = Some (length (s_variables s) + j)%nat) ∧
    (∀ i, i ∉ keys → d !! i = acc !! i).
Proof.
  intros Hvalue vs Hdecl. induction Hdecl as [|i v keys vs Hi _ IH].
  - intros _ acc s. exists acc. rewrite app_nil_r. destruct s; simpl.
    split; [reflexivity|]. split; [|reflexivity].
    intros j i Hj. by rewrite lookup_nil in Hj.
  - intros [Hnotin Hnodup]%NoDup_cons acc s.
    cbn [dict_comp]. unfold mbind at 1, M_bind.
    rewrite Hvalue. unfold mbind at 1, M_bind, lift. rewrite Hi.
    rewrite add_variable_run.
    destruct (IH Hnodup (<[i := length (s_variables s)]> acc)
                (MkSolver (s_name s) (s_type s) (s_variables s ++ [v])
                   (s_constraints s) (s_objective s)))
      as (d & Hrun & Hkeys & Hother).
    exists d. cbn [s_name s_type s_variables s_constraints s_objective] in *.
    rewrite <- app_assoc in Hrun. split; [exact Hrun|]. split.
    + intros [|j] i' Hj; cbn in Hj.
      * injection Hj as <-. rewrite (Hother _ Hnotin), lookup_insert_eq.
        f_equal. lia.
      * rewrite (Hkeys _ _ Hj), length_app. f_equal. simpl. lia.
    + intros i' [Hne Hnotin']%not_elem_of_cons.
      rewrite (Hother _ Hnotin'). by apply lookup_insert_ne.
Qed.

(** X1. A dict comprehension [{i: model.NumVar(..) for i in keys}] over
    distinct keys, each with a declaration: the variables are appended to
    the model in key order, nothing else changes, the key at position j
    gets handle (old variable count + j), other keys are absent, and
    looking a key up gives a handle whose variable is the one declared
    for that key. *)
Theorem registry_round_trip `{Countable K} (decl : K → option MPVariable)
    (value : K → M nat) (keys : list K) (vs : list MPVariable) (s : Solver) :
  (∀ i s', value i s' = (lift (decl i) ≫= add_variable) s') →
  mapM decl keys = Some vs →
  NoDup keys →
  ∃ d s',
    dict_comp keys value ∅ s = Some (d, s') ∧
    s_variables s' = s_variables s ++ vs ∧
    s_constraints s' = s_constraints s ∧
    s_objective s' = s_objective s ∧
    (∀ j i, keys !! j = Some i →
            d !! i = Some (length (s_variables s) + j)%nat) ∧
    (∀ i, i ∉ keys → d !! i = None) ∧
    (∀ i, i ∈ keys →
          ∃ h v, d !! i = Some h ∧ s_variables s' !! h = Some v ∧
                 decl i = Some v).
Proof.
  intros Hvalue Hdecl%mapM_Some Hnodup.
  destruct (dict_comp_spec decl value keys Hvalue vs Hdecl Hnodup ∅ s)
    as (d & Hrun & Hkeys & Hother).
  eexists d, _. split; [exact Hrun|].
  cbn [s_variables s_constraints s_objective].
  do 3 (split; [reflexivity|]). split; [exact Hkeys|]. split.
  - intros i Hi. rewrite (Hother i Hi). apply lookup_empty.
  - intros i [j Hj]%list_elem_of_lookup.
    destruct (Forall2_lookup_l _ _ _ _ _ Hdecl Hj) as (v & Hv & Hiv).
    exists (length (s_variables s) + j)%nat, v.
    split; [exact (Hkeys _ _ Hj)|]. split; [|exact Hiv].
    rewrite lookup_app_r by lia.
    replace (length (s_variables s) + j - length (s_variables s))%nat
      with j by lia.
    exact Hv.
Qed.

(** X2. A dict comprehension faults as soon as one of its keys has no
    declaration (a bound looked up in a table that lacks the key): the
    run ends with the exception and no dict is produced. *)
Theorem registry_missing_key `{Countable K} (decl : K → option MPVariable)
    (value : K → M nat) (keys : list K) (i : K)
    (acc : gmap K nat) (s : Solver) :
  (∀ i s', value i s' = (lift (decl i) ≫= add_variable) s') →
  i ∈ keys →
  decl i = None →
  dict_comp keys value acc s = None.
Proof.
  intros Hvalue Hin Hnone. revert acc s.
  induction keys as [|k keys IH]; [by apply elem_of_nil in Hin|].
  intros acc s. cbn [dict_comp]. unfold mbind at 1, M_bind.
  rewrite Hvalue. unfold mbind at 1, M_bind, lift.
  destruct (decl k) as [v|] eqn:Hk; [|reflexivity].
  rewrite add_variable_run.
  apply elem_of_cons in Hin as [->|Hin]; [congruence|].
  by apply IH.
Qed.

Lemma registry_round_trip_witness :
  let keys := product ["Jan"; "Feb"] ["Prod1"; "Prod4"] in
  let decl := λ i : string * string,
    ub ← Factory.max_sales !! i;
    Some (MkVariable 0 (inject_Z ub) false ("sold_" +:+ str_ss i)) in
  let value := λ i : string * string,
    ub ← lift (Factory.max_sales !! i);
    NumVar 0 (inject_Z ub) ("sold_" +:+ str_ss i) in
  let s := new_Solver "factory_planning_2" CBC_MIXED_INTEGER_PROGRAMMING in
  NoDup keys ∧
  mapM decl keys
  = Some [ MkVariable 0 500 false "sold_('Jan', 'Prod1')";
           MkVariable 0 300 false "sold_('Jan', 'Prod4')";
           MkVariable 0 600 false "sold_('Feb', 'Prod1')";
           MkVariable 0 0 false "sold_('Feb', 'Prod4')" ] ∧
  ∃ d s', dict_comp keys value ∅ s = Some (d, s') ∧
          d !! ("Feb", "Prod4") = Some 3%nat ∧
          d !! ("Mar", "Prod1") = None.
Proof.
  intros keys decl value s.
  assert (Hnodup : NoDup keys)
    by (apply (bool_decide_unpack (NoDup keys)); vm_compute; exact I).
  assert (Hdecl : mapM decl keys
    = Some [ MkVariable 0 500 false "sold_('Jan', 'Prod1')";
             MkVariable 0 300 false "sold_('Jan', 'Prod4')";
             MkVariable 0 600 false "sold_('Feb', 'Prod1')";
             MkVariable 0 0 false "sold_('Feb', 'Prod4')" ])
    by (vm_compute; reflexivity).
  assert (Hvalue : ∀ i s', value i s' = (lift (decl i) ≫= add_variable) s').
  { intros i s'. unfold value, decl, mbind, M_bind, lift, NumVar.
    destruct (Factory.max_sales !! i); reflexivity. }
  split; [exact Hnodup|]. split; [exact Hdecl|].
  destruct (registry_round_trip decl value keys _ s Hvalue Hdecl Hnodup)
    as (d & s' & Hrun & _ & _ & _ & Hkeys & Hother & _).
  exists d, s'. split; [exact Hrun|]. split.
  - exact (Hkeys 3%nat ("Feb", "Prod4") eq_refl).
  - apply Hother.
    apply (bool_decide_unpack (("Mar", "Prod1") ∉ keys)). vm_compute. exact I.
Defined.

Lemma registry_missing_key_witness :
  let keys := [("Jan", "Prod1"); ("Jul", "Prod1")] in
  let decl := λ i : string * string,
    ub ← Factory.max_sales !! i;
    Some (MkVariable 0 (inject_Z ub) false ("sold_" +:+ str_ss i)) in
  let value := λ i : string * string,
    ub ← lift (Factory.max_sales !! i);
    NumVar 0 (inject_Z ub) ("sold_" +:+ str_ss i) in
  ("Jul", "Prod1") ∈ keys ∧
  decl ("Jul", "Prod1") = None ∧
  dict_comp keys value ∅
    (new_Solver "factory_planning_2" CBC_MIXED_INTEGER_PROGRAMMING) = None.
Proof.
  intros keys decl value.
  assert (Hin : ("Jul", "Prod1") ∈ keys)
    by (apply elem_of_cons; right; apply elem_of_cons; left; reflexivity).
  assert (Hnone : decl ("Jul", "Prod1") = None) by (vm_compute; reflexivity).
  split; [exact Hin|]. split; [exact Hnone|].
  apply (registry_missing_key decl value keys ("Jul", "Prod1")).
  - intros i s'. unfold value, decl, mbind, M_bind, lift, NumVar.
    destruct (Factory.max_sales !! i); reflexivity.
  - exact Hin.
  - exact Hnone.
Defined.

(** ** The constraint loops: [for x in l: model.Add(..)] *)

(** ** The constraint loops: [for x in l: model.Add(..)] *)

Lemma with_constraints_nil s : with_constraints s [] = s.
Proof. destruct s. unfold with_constraints. simpl. by rewrite app_nil_r. Qed.

Lemma with_constraints_app s cs1 cs2 :
  with_constraints (with_constraints s cs1) cs2 = with_constraints s (cs1 ++ cs2).
Proof. unfold with_constraints. simpl. by rewrite app_assoc. Qed.

(** X3. A loop [for x in l: model.Add(f(x))] appends the constraints
    [f(x)] to the model in the order of [l] and changes nothing else; if
    building any one of them raises, the run ends with the exception. *)
Theorem for_each_Add {A} (f : A → option LinearConstraint) (l : list A)
    (s : Solver) :
  for_each l (λ x, lift (f x) ≫= Add) s
  = (λ cs, ((), with_constraints s cs)) <$> mapM f l.
Proof.
  revert s. induction l as [|x l IH]; intros s.
  - cbn. by rewrite with_constraints_nil.
  - cbn [for_each mapM]. unfold mbind at 1, M_bind.
    unfold mbind at 1, M_bind, lift.
    destruct (f x) as [c|]; [|reflexivity].
    cbn [Add]. rewrite IH. cbn [mbind option_bind].
    destruct (mapM f l) as [cs|]; [|reflexivity].
    cbn. unfold with_constraints. simpl. by rewrite <- app_assoc.
Qed.

Lemma adds_Add (o : option LinearConstraint) : adds 1 (lift o ≫= Add).
Proof.
  intros s. unfold mbind, M_bind, lift. destruct o as [c|]; [|by left].
  right. exists [c]. split; reflexivity.
Qed.

Lemma adds_seq n1 n2 (m1 m2 : M ()) :
  adds n1 m1 → adds n2 m2 → adds (n1 + n2) (m1 ≫= λ _, m2).
Proof.
  intros H1 H2 s. unfold mbind, M_bind.
  destruct (H1 s) as [->|(cs1 & Hn1 & ->)]; [by left|].
  destruct (H2 (with_constraints s cs1)) as [->|(cs2 & Hn2 & ->)]; [by left|].
  right. exists (cs1 ++ cs2). rewrite length_app, with_constraints_app.
  split; [lia | reflexivity].
Qed.

Lemma adds_lift_bind {A} n (o : option A) (body : A → M ()) :
  (∀ x, adds n (body x)) → adds n (lift o ≫= body).
Proof.
  intros Hbody s. unfold mbind, M_bind, lift.
  destruct o as [x|]; [apply Hbody | by left].
Qed.

Lemma adds_for_each {A} n (l : list A) (body : A → M ()) :
  (∀ x, adds n (body x)) → adds (length l * n) (for_each l body).
Proof.
  intros Hbody. induction l as [|x l IH].
  - intros s. right. exists []. by rewrite with_constraints_nil.
  - cbn [for_each length]. apply (adds_seq n (length l * n)); [apply Hbody|].
    exact IH.
Qed.

Lemma adds_frame n m s s' :
  adds n m → m s = Some ((), s') →
  s_variables s' = s_variables s ∧
  s_objective s' = s_objective s ∧
  ∃ cs, s_constraints s' = s_constraints s ++ cs ∧ length cs = n.
Proof.
  intros Hadds Hrun. destruct (Hadds s) as [Hnone|(cs & Hn & Hsome)];
    [congruence|].
  rewrite Hsome in Hrun. injection Hrun as <-.
  split; [reflexivity|]. split; [reflexivity|]. by exists cs.
Qed.

Lemma adds_eq n n' m : n = n' → adds n m → adds n' m.
Proof. by intros ->. Qed.

(** Count the constraints a block of loops adds, following its shape. *)
Ltac count_adds :=
  repeat lazymatch goal with
    | |- adds _ (for_each _ _) => apply adds_for_each; intros ?
    | |- adds _ (lift _ ≫= Add) => apply adds_Add
    | |- adds _ (lift _ ≫= _) => apply adds_lift_bind; intros ?
    | |- adds _ (_ ≫= _) => apply adds_seq
    end.

Lemma factory_add_constraints_adds dv : adds 84 (Factory.add_constraints dv).
Proof.
  eapply adds_eq; [|unfold Factory.add_constraints; count_adds]. reflexivity.
Qed.

Lemma food_add_constraints_adds dv : adds 65 (Food.add_constraints dv).
Proof.
  eapply adds_eq; [|unfold Food.add_constraints; count_adds]. reflexivity.
Qed.

Lemma manpower_add_constraints_adds dv : adds 30 (Manpower.add_constraints dv).
Proof.
  eapply adds_eq; [|unfold Manpower.add_constraints; count_adds]. reflexivity.
Qed.

(** ** The whole build only appends *)

Lemma with_variables_nil s : with_variables s [] = s.
Proof. destruct s. unfold with_variables. simpl. by rewrite app_nil_r. Qed.

Lemma with_variables_app s vs1 vs2 :
  with_variables (with_variables s vs1) vs2 = with_variables s (vs1 ++ vs2).
Proof. unfold with_variables. simpl. by rewrite app_assoc. Qed.

Lemma registers_ret {A} (x : A) : registers 0 (mret x).
Proof. intros s. right. exists x, []. by rewrite with_variables_nil. Qed.

Lemma registers_add_variable v : registers 1 (add_variable v).
Proof. intros s. right. exists (length (s_variables s)), [v]. by split. Qed.

Lemma registers_bind {A B} n1 n2 (m : M A) (k : A → M B) :
  registers n1 m → (∀ x, registers n2 (k x)) → registers (n1 + n2) (m ≫= k).
Proof.
  intros Hm Hk s. unfold mbind, M_bind.
  destruct (Hm s) as [->|(x & vs1 & Hn1 & ->)]; [by left|].
  destruct (Hk x (with_variables s vs1)) as [->|(y & vs2 & Hn2 & ->)];
    [by left|].
  right. exists y, (vs1 ++ vs2). rewrite length_app, with_variables_app.
  split; [lia | reflexivity].
Qed.

Lemma registers_lift_bind {A B} n (o : option A) (k : A → M B) :
  (∀ x, registers n (k x)) → registers n (lift o ≫= k).
Proof.
  intros Hk s. unfold mbind, M_bind, lift.
  destruct o as [x|]; [apply Hk | by left].
Qed.

Lemma registers_dict_comp `{Countable K} {V} n (keys : list K)
    (value : K → M V) (acc : gmap K V) :
  (∀ i, registers n (value i)) →
  registers (length keys * n) (dict_comp keys value acc).
Proof.
  intros Hvalue. revert acc. induction keys as [|i keys IH]; intros acc.
  - apply registers_ret.
  - cbn [dict_comp length]. apply (registers_bind n (length keys * n)).
    + apply Hvalue.
    + intros v. apply IH.
Qed.

Lemma registers_eq {A} n n' (m : M A) : n = n' → registers n m → registers n' m.
Proof. by intros ->. Qed.

(** Count the variables a block of dict comprehensions registers. *)
Ltac count_registers :=
  repeat lazymatch goal with
    | |- registers _ (dict_comp _ _ _) => apply registers_dict_comp; intros ?
    | |- registers _ (NumVar _ _ _) => apply registers_add_variable
    | |- registers _ (IntVar _ _ _) => apply registers_add_variable
    | |- registers _ (mret _) => apply registers_ret
    | |- registers _ (lift _ ≫= _) => apply registers_lift_bind; intros ?
    | |- registers _ (_ ≫= _) => apply registers_bind; [|intros ?]
    | |- registers _ (let '(_, _) := ?p in _) => destruct p
    end.

Lemma factory_register_variables_registers :
  registers 156 Factory.register_variables.
Proof.
  eapply registers_eq; [|unfold Factory.register_variables; count_registers].
  reflexivity.
Qed.

Lemma food_register_variables_registers :
  registers 96 Food.register_variables.
Proof.
  eapply registers_eq; [|unfold Food.register_variables; count_registers].
  reflexivity.
Qed.

Lemma manpower_register_variables_registers :
  registers 72 Manpower.register_variables.
Proof.
  eapply registers_eq; [|unfold Manpower.register_variables; count_registers].
  reflexivity.
Qed.

(** A build made of a registration, a block of constraint loops and one
    objective only appends to the model it starts from. *)
Lemma build_appends {A} nv nc (d : Direction)
    (register : M A) (add : A → M ()) (obj : A → option LinearExpr) s x s' :
  registers nv register →
  (∀ dv, adds nc (add dv)) →
  (dv ← register; add dv;; lift (obj dv) ≫= set_objective d;; mret dv) s
  = Some (x, s') →
  ∃ vs cs e,
    length vs = nv ∧ length cs = nc ∧ obj x = Some e ∧
    s' = MkSolver (s_name s) (s_type s) (s_variables s ++ vs)
                  (s_constraints s ++ cs) (Some (d, e)).
Proof.
  intros Hreg Hadd. unfold mbind at 1, M_bind.
  destruct (Hreg s) as [->|(dv & vs & Hnv & ->)]; [discriminate|].
  unfold mbind at 1, M_bind.
  destruct (Hadd dv (with_variables s vs)) as [->|(cs & Hnc & ->)];
    [discriminate|].
  unfold mbind, M_bind, lift, mret, M_ret.
  destruct (obj dv) as [e|] eqn:He; [|discriminate].
  cbn. intros [= <- <-]. exists vs, cs, e. by repeat split.
Qed.

(** X4. Run on any model, the factory build either faults or appends
    exactly 156 variables and 84 constraints to it and sets the objective
    to maximise [obj_func]; the variables and constraints the model had
    before are kept unchanged, in place. *)
Theorem factory_build_appends (s s' : Solver) (dv : Factory.Vars) :
  Factory.build s = Some (dv, s') →
  ∃ vs cs e,
    length vs = 156%nat ∧ length cs = 84%nat ∧
    Factory.obj_func dv = Some e ∧
    s' = MkSolver (s_name s) (s_type s) (s_variables s ++ vs)
                  (s_constraints s ++ cs) (Some (MAXIMIZE, e)).
Proof.
  apply (build_appends 156 84 MAXIMIZE Factory.register_variables
           Factory.add_constraints Factory.obj_func).
  - exact factory_register_variables_registers.
  - exact factory_add_constraints_adds.
Qed.

Lemma factory_build_appends_witness :
  let s := MkSolver "shared" CBC_MIXED_INTEGER_PROGRAMMING
             [MkVariable 0 1 false "x"]
             [Constraint (EVar 0) LE (EConst 1)] None in
  ∃ dv s',
    Factory.build s = Some (dv, s') ∧
    ∃ vs cs e,
      length vs = 156%nat ∧ length cs = 84%nat ∧
      Factory.obj_func dv = Some e ∧
      s' = MkSolver (s_name s) (s_type s) (s_variables s ++ vs)
                    (s_constraints s ++ cs) (Some (MAXIMIZE, e)).
Proof.
  intros s.
  assert (Hsome : is_Some (Factory.build s))
    by (apply is_Some_true; vm_compute; reflexivity).
  destruct (Factory.build s) as [[dv s']|] eqn:Hrun; [|by destruct Hsome].
  exists dv, s'. split; [reflexivity|].
  exact (factory_build_appends s s' dv Hrun).
Defined.

(** X5. Run on any model, the food build either faults or appends
    exactly 96 variables and 65 constraints to it and sets the objective
    to maximise [obj_func]; what the model held before is kept. *)
Theorem food_build_appends (s s' : Solver) (dv : Food.Vars) :
  Food.build s = Some (dv, s') →
  ∃ vs cs e,
    length vs = 96%nat ∧ length cs = 65%nat ∧
    Food.obj_func dv = Some e ∧
    s' = MkSolver (s_name s) (s_type s) (s_variables s ++ vs)
                  (s_constraints s ++ cs) (Some (MAXIMIZE, e)).
Proof.
  apply (build_appends 96 65 MAXIMIZE Food.register_variables
           Food.add_constraints Food.obj_func).
  - exact food_register_variables_registers.
  - exact food_add_constraints_adds.
Qed.

Lemma food_build_appends_witness :
  let s := MkSolver "shared" GLOP_LINEAR_PROGRAMMING
             [MkVariable 0 1 false "x"]
             [Constraint (EVar 0) LE (EConst 1)] None in
  ∃ dv s',
    Food.build s = Some (dv, s') ∧
    ∃ vs cs e,
      length vs = 96%nat ∧ length cs = 65%nat ∧
      Food.obj_func dv = Some e ∧
      s' = MkSolver (s_name s) (s_type s) (s_variables s ++ vs)
                    (s_constraints s ++ cs) (Some (MAXIMIZE, e)).
Proof.
  intros s.
  assert (Hsome : is_Some (Food.build s))
    by (apply is_Some_true; vm_compute; reflexivity).
  destruct (Food.build s) as [[dv s']|] eqn:Hrun; [|by destruct Hsome].
  exists dv, s'. split; [reflexivity|].
  exact (food_build_appends s s' dv Hrun).
Defined.

(** X6. Run on any model, the manpower build either faults or appends
    exactly 72 variables and 30 constraints to it and sets the objective
    to minimise [obj_layoffs]; what the model held before is kept. *)
Theorem manpower_build_appends (s s' : Solver) (dv : Manpower.Vars) :
  Manpower.build s = Some (dv, s') →
  ∃ vs cs e,
    length vs = 72%nat ∧ length cs = 30%nat ∧
    Manpower.obj_layoffs dv = Some e ∧
    s' = MkSolver (s_name s) (s_type s) (s_variables s ++ vs)
                  (s_constraints s ++ cs) (Some (MINIMIZE, e)).
Proof.
  apply (build_appends 72 30 MINIMIZE Manpower.register_variables
           Manpower.add_constraints Manpower.obj_layoffs).
  - exact manpower_register_variables_registers.
  - exact manpower_add_constraints_adds.
Qed.

Lemma manpower_build_appends_witness :
  let s := MkSolver "shared" GLOP_LINEAR_PROGRAMMING
             [MkVariable 0 1 false "x"]
             [Constraint (EVar 0) LE (EConst 1)] None in
  ∃ dv s',
    Manpower.build s = Some (dv, s') ∧
    ∃ vs cs e,
      length vs = 72%nat ∧ length cs = 30%nat ∧
      Manpower.obj_layoffs dv = Some e ∧
      s' = MkSolver (s_name s) (s_type s) (s_variables s ++ vs)
                    (s_constraints s ++ cs) (Some (MINIMIZE, e)).
Proof.
  intros s.
  assert (Hsome : is_Some (Manpower.build s))
    by (apply is_Some_true; vm_compute; reflexivity).
  destruct (Manpower.build s) as [[dv s']|] eqn:Hrun; [|by destruct Hsome].
  exists dv, s'. split; [reflexivity|].
  exact (manpower_build_appends s s' dv Hrun).
Defined.

(** ** The previous period: [l[l.index(x) - 1]] *)

Lemma index_Some l x k :
  index x l = Some k → (0 ≤ k)%Z ∧ l !! Z.to_nat k = Some x.
Proof.
  revert k. induction l as [|y l IH]; intros k; [discriminate|].
  cbn [index]. destruct (String.eqb_spec x y) as [->|Hne].
  - intros [= <-]. split; [lia | reflexivity].
  - destruct (index x l) as [k'|]; [|discriminate].
    intros [= <-]. destruct (IH k' eq_refl) as [Hk' Hl]. split; [lia|].
    rewrite Z2Nat.inj_succ by lia. exact Hl.
Qed.

Lemma index_None l x : index x l = None ↔ x ∉ l.
Proof.
  induction l as [|y l IH]; cbn [index].
  - split; [intros _; apply not_elem_of_nil | reflexivity].
  - rewrite not_elem_of_cons. destruct (String.eqb_spec x y) as [->|Hne].
    + split; [discriminate | by intros [? _]].
    + destruct (index x l); cbn.
      * split; [discriminate|]. intros [_ Hnotin]. by apply IH in Hnotin.
      * split; [|reflexivity]. intros _. split; [exact Hne | by apply IH].
Qed.

Lemma index_NoDup l n x :
  NoDup l → l !! n = Some x → index x l = Some (Z.of_nat n).
Proof.
  revert n. induction l as [|y l IH]; intros n Hnodup Hn;
    [by rewrite lookup_nil in Hn|].
  apply NoDup_cons in Hnodup as [Hnotin Hnodup]. cbn [index].
  destruct n as [|n]; cbn in Hn.
  - injection Hn as ->. by rewrite String.eqb_refl.
  - destruct (String.eqb_spec x y) as [->|Hne].
    + exfalso. apply Hnotin. by eapply list_elem_of_lookup_2.
    + rewrite (IH n Hnodup Hn). cbn. f_equal. lia.
Qed.

(** X7. In a list without repetitions, for an element [x] at a position
    after the first, [l[l.index(x) - 1]] is the element just before [x]:
    this is how the balance loops find the previous month. *)
Theorem previous_by_index (l : list string) (n : nat) (x y : string) :
  NoDup l →
  l !! n = Some y →
  l !! S n = Some x →
  ∃ k, index x l = Some k ∧ getitem l (k - 1) = Some y.
Proof.
  intros Hnodup Hy Hx. exists (Z.of_nat (S n)).
  split; [by apply index_NoDup|].
  unfold getitem. replace (Z.of_nat (S n) - 1)%Z with (Z.of_nat n) by lia.
  destruct (Z.ltb_spec (Z.of_nat n) 0) as [Hneg|_]; [lia|].
  by rewrite Nat2Z.id.
Qed.

Lemma previous_by_index_witness :
  NoDup Factory.months ∧
  Factory.months !! 2%nat = Some "Mar" ∧
  Factory.months !! 3%nat = Some "Apr" ∧
  ∃ k, index "Apr" Factory.months = Some k ∧
       getitem Factory.months (k - 1) = Some "Mar".
Proof.
  assert (Hnodup : NoDup Factory.months)
    by (apply (bool_decide_unpack (NoDup Factory.months)); vm_compute; exact I).
  split; [exact Hnodup|]. split; [reflexivity|]. split; [reflexivity|].
  exact (previous_by_index Factory.months 2 "Apr" "Mar" Hnodup eq_refl eq_refl).
Defined.

(** X8. For the first element of a list the same expression does not
    fault: the index [-1] counts from the end, so [l[l.index(x) - 1]] is
    the last element.  The balance loops therefore have to skip the
    first month, as they do with [months[1:]]. *)
Theorem previous_of_first_wraps (x : string) (l : list string) :
  index x (x :: l) = Some 0%Z ∧
  getitem (x :: l) (0 - 1) = last (x :: l).
Proof.
  split.
  - cbn [index]. by rewrite String.eqb_refl.
  - unfold getitem. cbn [length].
    destruct (Z.ltb_spec (0 - 1) 0) as [_|Hpos]; [|lia].
    destruct (Z.ltb_spec (0 - 1 + Z.of_nat (S (length l))) 0) as [Hneg|_];
      [lia|].
    replace (Z.to_nat (0 - 1 + Z.of_nat (S (length l)))) with (length l)
      by lia.
    rewrite last_lookup. reflexivity.
Qed.

(** X9. The factory balance constraint of a month that is not in
    [months] cannot be built: [months.index(mth)] raises. *)
Theorem factory_balance_unknown_month (dv : Factory.Vars) (mth prd : string) :
  mth ∉ Factory.months → Factory.balance dv mth prd = None.
Proof.
  intros Hnotin%index_None. unfold Factory.balance. by rewrite Hnotin.
Qed.

Lemma factory_balance_unknown_month_witness :
  ("Jul" ∉ Factory.months) ∧
  Factory.balance Factory.dv "Jul" "Prod1" = None.
Proof.
  assert (Hnotin : "Jul" ∉ Factory.months)
    by (apply (bool_decide_unpack ("Jul" ∉ Factory.months));
        vm_compute; exact I).
  split; [exact Hnotin|].
  exact (factory_balance_unknown_month Factory.dv "Jul" "Prod1" Hnotin).
Defined.

(** ** Capacities, caps and totals in feasible assignments *)

(** One hypothesis per constraint and per bound of a built model. *)
Ltac explicit_feasible model :=
  match goal with
  | H : feasible model _ |- _ =>
      let Hc := fresh "Hc" in
      let Hb := fresh "Hb" in
      let Ec := fresh "Ec" in
      let Ev := fresh "Ev" in
      apply feasible_Forall in H as [Hc Hb];
      assert (Ec : s_constraints model
                   = ltac:(let l := eval vm_compute in (s_constraints model) in
                           exact l))
        by (vm_compute; reflexivity);
      assert (Ev : imap pair (s_variables model)
                   = ltac:(let l := eval vm_compute in
                                      (imap pair (s_variables model)) in
                           exact l))
        by (vm_compute; reflexivity);
      rewrite Ec in Hc; clear Ec; rewrite Ev in Hb; clear Ev;
      repeat (apply Forall_cons_1 in Hc as [? Hc]); clear Hc;
      repeat (apply Forall_cons_1 in Hb as [[? [? _]] Hb]); clear Hb;
      unfold holds in *;
      cbn [c_rel c_lhs c_rhs solution_value fst snd v_lb v_ub] in *
  end.

(** Evaluate the dict and table lookups on closed keys in the goal. *)
Ltac compute_lookups :=
  repeat match goal with
    | |- context [?d !! ?k] =>
        let r := eval vm_compute in (d !! k) in
        progress (replace (d !! k) with r by (vm_compute; reflexivity))
    end.

(** The value of a registered variable, for a closed key. *)
Ltac value_of_key :=
  eexists; split; [vm_compute; reflexivity | reflexivity].

Lemma factory_capacity_inv dv mth mach c :
  Factory.capacity dv mth mach = Some c →
  ∃ times terms installed r,
    Factory.time_required !! mach = Some times ∧
    mapM (λ prd, t ← assoc prd times;
                 m ← Factory.dv_manufacture dv !! (mth, prd);
                 Some (EMul t (EVar m))) times.*1 = Some terms ∧
    Factory.machines_installed !! mach = Some installed ∧
    Factory.dv_repair dv !! (mth, mach) = Some r ∧
    c = Constraint (Sum terms) LE
          (EMul (inject_Z Factory.hours_per_month)
                (ESub (EConst (inject_Z installed)) (EVar r))).
Proof.
  unfold Factory.capacity.
  destruct (Factory.time_required !! mach) as [times|]; [|discriminate].
  cbn [mbind option_bind].
  destruct (mapM _ times.*1) as [terms|] eqn:Hterms; [|discriminate].
  cbn [mbind option_bind].
  destruct (Factory.machines_installed !! mach) as [installed|];
    [|discriminate].
  destruct (Factory.dv_repair dv !! (mth, mach)) as [r|] eqn:Hr;
    [|discriminate].
  intros [= <-]. exists times, terms, installed, r. auto.
Qed.

Lemma factory_capacity_registered :
  all_registered (λ i, Factory.capacity Factory.dv i.1 i.2)
    (s_constraints Factory.model)
    (product Factory.months Factory.machines).
Proof. apply all_registeredb_sound. vm_compute. reflexivity. Qed.

Lemma factory_capacity_holds a mth mach :
  feasible Factory.model a →
  (mth, mach) ∈ product Factory.months Factory.machines →
  ∃ times installed r,
    Factory.time_required !! mach = Some times ∧
    Factory.machines_installed !! mach = Some installed ∧
    Factory.dv_repair Factory.dv !! (mth, mach) = Some r ∧
    Qsum ((λ prd, default 0 (assoc prd times)
                  * value a (Factory.dv_manufacture Factory.dv) (mth, prd))
            <$> times.*1)
    <= 384 * (inject_Z installed - a r).
Proof.
  intros Hfeas Hi.
  pose proof factory_capacity_registered as Hreg.
  unfold all_registered in Hreg. rewrite Forall_forall in Hreg.
  destruct (Hreg _ Hi) as (c & Hc & Hin). cbn [fst snd] in Hc.
  apply factory_capacity_inv in Hc.
  destruct Hc as (times & terms & installed & r & Htimes & Hterms & Hinst
                  & Hr & ->).
  exists times, installed, r.
  split; [assumption|]. split; [assumption|]. split; [assumption|].
  pose proof (feasible_holds _ _ _ Hfeas Hin) as Hle.
  unfold holds in Hle. cbn [c_rel c_lhs c_rhs solution_value] in Hle.
  erewrite mapM_Sum_value in Hle; [exact Hle | exact Hterms |].
  intros prd e. cbv beta. unfold value.
  destruct (assoc prd times) as [t|]; [|discriminate].
  destruct (Factory.dv_manufacture Factory.dv !! (mth, prd)) as [m|];
    [|discriminate].
  intros [= <-]. reflexivity.
Qed.

(** X10. In every feasible assignment of the factory model, for every
    month and machine type, the hours needed by the month's production on
    that machine type (time per unit times units, over the products that
    use it) do not exceed 384 hours for each installed machine that is
    not under repair that month. *)
Theorem machine_capacity_respected (a : assignment) :
  feasible Factory.model a →
  registered (Factory.dv_manufacture Factory.dv) Factory.month_product ∧
  Forall (λ '(mth, mach), ∃ times installed r,
            Factory.time_required !! mach = Some times ∧
            Factory.machines_installed !! mach = Some installed ∧
            has_value a (Factory.dv_repair Factory.dv) (mth, mach) r ∧
            Qsum ((λ prd, default 0 (assoc prd times)
                          * value a (Factory.dv_manufacture Factory.dv)
                              (mth, prd)) <$> times.*1)
            <= 384 * (inject_Z installed - r))
         (product Factory.months Factory.machines).
Proof.
  intros Hfeas.
  split; [apply registeredb_sound; vm_compute; reflexivity|].
  apply Forall_forall. intros [mth mach] Hi.
  destruct (factory_capacity_holds a mth mach Hfeas Hi)
    as (times & installed & r & Htimes & Hinst & Hr & Hle).
  exists times, installed, (a r).
  split; [assumption|]. split; [assumption|].
  split; [exact (has_value_intro _ _ _ _ Hr) | exact Hle].
Qed.

Lemma machine_capacity_respected_witness :
  feasible Factory.model factory_point ∧
  Forall (λ '(mth, mach), ∃ times installed r,
            Factory.time_required !! mach = Some times ∧
            Factory.machines_installed !! mach = Some installed ∧
            has_value factory_point (Factory.dv_repair Factory.dv)
              (mth, mach) r ∧
            Qsum ((λ prd, default 0 (assoc prd times)
                          * value factory_point
                              (Factory.dv_manufacture Factory.dv)
                              (mth, prd)) <$> times.*1)
            <= 384 * (inject_Z installed - r))
         (product Factory.months Factory.machines).
Proof.
  assert (Hfac : feasible Factory.model factory_point)
    by (apply feasibleb_sound; vm_compute; reflexivity).
  split; [exact Hfac|].
  exact (proj2 (machine_capacity_respected factory_point Hfac)).
Defined.

Lemma Qsum_nonneg l : Forall (λ q, 0 <= q) l → 0 <= Qsum l.
Proof.
  induction 1 as [|q l Hq _ IH]; [apply Qle_refl|].
  rewrite Qsum_cons. lra.
Qed.

Lemma Qsum_zero_terms l :
  Forall (λ q, 0 <= q) l → Qsum l <= 0 → Forall (λ q, q == 0) l.
Proof.
  induction 1 as [|q l Hq Hl IH]; [constructor|].
  rewrite Qsum_cons. intros Hsum.
  pose proof (Qsum_nonneg l Hl) as Hnonneg.
  constructor; [lra|]. apply IH. lra.
Qed.

(** Every variable registered in [d] has a non-negative lower bound, so
    its value is non-negative in a feasible assignment. *)
Lemma value_nonneg `{Countable K} m (d : gmap K nat) a k :
  forallb (λ kh, match s_variables m !! kh.2 with
                 | Some v => Qle_bool 0 (v_lb v)
                 | None => false
                 end) (map_to_list d) = true →
  feasible m a → 0 <= value a d k.
Proof.
  intros Hcheck Hfeas. unfold value.
  destruct (d !! k) as [h|] eqn:Hh; [|apply Qle_refl].
  rewrite forallb_forall in Hcheck.
  apply elem_of_map_to_list, list_elem_of_In in Hh.
  specialize (Hcheck _ Hh). cbn [snd] in Hcheck.
  destruct (s_variables m !! h) as [v|] eqn:Hv; [|discriminate].
  apply Qle_bool_iff in Hcheck.
  destruct (feasible_within_bounds _ _ _ _ Hfeas Hv) as (Hlb & _).
  change (0 <= a h). lra.
Qed.

Lemma factory_manufacture_nonneg a k :
  feasible Factory.model a →
  0 <= value a (Factory.dv_manufacture Factory.dv) k.
Proof. apply value_nonneg. vm_compute. reflexivity. Qed.

Lemma factory_time_required_positive mach times :
  mach ∈ Factory.machines →
  Factory.time_required !! mach = Some times →
  Forall (λ prd, 0 < default 0 (assoc prd times)) times.*1.
Proof.
  intros Hmach. unfold Factory.machines in Hmach.
  repeat (apply elem_of_cons in Hmach as [->|Hmach]);
    [..|by apply elem_of_nil in Hmach];
    intros [= <-]; repeat constructor.
Qed.

(** X11. In a feasible assignment of the factory model, when all the
    installed machines of one type are under repair in a month, nothing
    is manufactured that month of any product that needs this machine
    type. *)
Theorem no_production_without_machine (a : assignment) (mth mach : string)
    (times : list (string * Q)) (installed : Z) :
  feasible Factory.model a →
  (mth, mach) ∈ product Factory.months Factory.machines →
  Factory.time_required !! mach = Some times →
  Factory.machines_installed !! mach = Some installed →
  value a (Factory.dv_repair Factory.dv) (mth, mach) == inject_Z installed →
  Forall (λ prd, value a (Factory.dv_manufacture Factory.dv) (mth, prd) == 0)
         times.*1.
Proof.
  intros Hfeas Hi Htimes Hinst Hall.
  destruct (factory_capacity_holds a mth mach Hfeas Hi)
    as (times' & installed' & r & Htimes' & Hinst' & Hr & Hle).
  assert (times' = times) as -> by congruence.
  assert (installed' = installed) as -> by congruence.
  rewrite (value_lookup _ _ _ _ Hr) in Hall.
  assert (Hzero : Qsum ((λ prd, default 0 (assoc prd times)
                      * value a (Factory.dv_manufacture Factory.dv) (mth, prd))
                     <$> times.*1) <= 0) by (rewrite Hall in Hle; lra).
  apply elem_of_product in Hi as [_ Hmach].
  pose proof (factory_time_required_positive mach times Hmach Htimes) as Hpos.
  apply Qsum_zero_terms in Hzero.
  - rewrite Forall_fmap in Hzero. rewrite Forall_forall in Hzero, Hpos.
    apply Forall_forall. intros prd Hprd.
    specialize (Hzero prd Hprd). specialize (Hpos prd Hprd).
    cbv beta in Hzero. unfold compose in Hzero.
    pose proof (factory_manufacture_nonneg a (mth, prd) Hfeas) as Hnonneg.
    nra.
  - rewrite Forall_fmap. apply Forall_forall. intros prd Hprd.
    rewrite Forall_forall in Hpos. specialize (Hpos prd Hprd).
    unfold compose.
    pose proof (factory_manufacture_nonneg a (mth, prd) Hfeas) as Hnonneg.
    nra.
Qed.

Lemma no_production_without_machine_witness :
  let times := [("Prod1", 0.1); ("Prod2", 0.2); ("Prod4", 0.3); ("Prod6", 0.6)] in
  feasible Factory.model factory_point ∧
  value factory_point (Factory.dv_repair Factory.dv) ("Jan", "vertDrill")
    == inject_Z 2 ∧
  Forall (λ prd, value factory_point (Factory.dv_manufacture Factory.dv)
                   ("Jan", prd) == 0)
         times.*1.
Proof.
  intros times.
  assert (Hfac : feasible Factory.model factory_point)
    by (apply feasibleb_sound; vm_compute; reflexivity).
  assert (Hrep : value factory_point (Factory.dv_repair Factory.dv)
                   ("Jan", "vertDrill") == inject_Z 2)
    by (vm_compute; reflexivity).
  split; [exact Hfac|]. split; [exact Hrep|].
  apply (no_production_without_machine factory_point "Jan" "vertDrill"
           times 2 Hfac).
  - apply elem_of_product. split.
    + apply elem_of_cons. left. reflexivity.
    + apply elem_of_cons. right. apply elem_of_cons. left. reflexivity.
  - vm_compute. reflexivity.
  - vm_compute. reflexivity.
  - exact Hrep.
Defined.

(** X12. Over the whole horizon of the factory model, in every feasible
    assignment and for every product, the units manufactured equal the
    units sold plus the 50 units left in stock at the end of June:
    nothing is made that is not sold or kept. *)
Theorem factory_horizon_conservation (a : assignment) :
  feasible Factory.model a →
  registered (Factory.dv_manufacture Factory.dv) Factory.month_product ∧
  registered (Factory.dv_sold Factory.dv) Factory.month_product ∧
  Forall (λ prd,
            Qsum ((λ mth, value a (Factory.dv_manufacture Factory.dv)
                            (mth, prd)) <$> Factory.months)
            == Qsum ((λ mth, value a (Factory.dv_sold Factory.dv) (mth, prd))
                       <$> Factory.months)
               + inject_Z Factory.inventory_target)
         Factory.products.
Proof.
  intros Hfeas.
  split; [apply registeredb_sound; vm_compute; reflexivity|].
  split; [apply registeredb_sound; vm_compute; reflexivity|].
  explicit_feasible Factory.model.
  forall_cases;
    (unfold value, Factory.months, Factory.inventory_target;
     cbn [fmap list_fmap Qsum foldr];
     compute_lookups; cbn [default fmap option_fmap option_map];
     unfold id, inject_Z; lra).
Qed.

Lemma factory_horizon_conservation_witness :
  feasible Factory.model factory_point ∧
  Forall (λ prd,
            Qsum ((λ mth, value factory_point
                            (Factory.dv_manufacture Factory.dv)
                            (mth, prd)) <$> Factory.months)
            == Qsum ((λ mth, value factory_point (Factory.dv_sold Factory.dv)
                               (mth, prd))
                       <$> Factory.months)
               + inject_Z Factory.inventory_target)
         Factory.products.
Proof.
  assert (Hfac : feasible Factory.model factory_point)
    by (apply feasibleb_sound; vm_compute; reflexivity).
  split; [exact Hfac|].
  exact (proj2 (proj2 (factory_horizon_conservation factory_point Hfac))).
Defined.

(** X13. Over the whole horizon of the food model, in every feasible
    assignment and for every oil, the tons bought equal the tons
    consumed: the store starts and ends with the same 500 tons, so every
    ton refined has been bought within the six months. *)
Theorem food_horizon_conservation (a : assignment) :
  feasible Food.model a →
  registered (Food.dv_oil_buy Food.dv) Food.month_oil ∧
  registered (Food.dv_oil_consume Food.dv) Food.month_oil ∧
  Forall (λ ol,
            Qsum ((λ mth, value a (Food.dv_oil_buy Food.dv) (mth, ol))
                    <$> Food.months)
            == Qsum ((λ mth, value a (Food.dv_oil_consume Food.dv) (mth, ol))
                       <$> Food.months))
         Food.oils.
Proof.
  intros Hfeas.
  split; [apply registeredb_sound; vm_compute; reflexivity|].
  split; [apply registeredb_sound; vm_compute; reflexivity|].
  explicit_feasible Food.model.
  forall_cases;
    (unfold value, Food.months;
     cbn [fmap list_fmap Qsum foldr];
     compute_lookups; cbn [default fmap option_fmap option_map];
     unfold id, inject_Z; lra).
Qed.

Lemma food_horizon_conservation_witness :
  feasible Food.model food_optimum ∧
  Forall (λ ol,
            Qsum ((λ mth, value food_optimum (Food.dv_oil_buy Food.dv)
                            (mth, ol)) <$> Food.months)
            == Qsum ((λ mth, value food_optimum (Food.dv_oil_consume Food.dv)
                               (mth, ol))
                       <$> Food.months))
         Food.oils.
Proof.
  assert (Hfood : feasible Food.model food_optimum)
    by (apply feasibleb_sound; vm_compute; reflexivity).
  split; [exact Hfood|].
  exact (proj2 (proj2 (food_horizon_conservation food_optimum Hfood))).
Defined.

(** X14. In every feasible assignment of the food model and for every
    month, at most 200 tons of vegetable oils and at most 250 tons of
    non-vegetable oils are refined, hence at most 450 tons of food are
    produced. *)
Theorem refining_capacity_respected (a : assignment) :
  feasible Food.model a →
  registered (Food.dv_oil_consume Food.dv) Food.month_oil ∧
  Forall (λ mth, ∃ p,
            has_value a (Food.dv_prod Food.dv) mth p ∧
            Qsum ((λ ol, value a (Food.dv_oil_consume Food.dv) (mth, ol))
                    <$> Food.veg_oils) <= inject_Z Food.veg_upper_cap ∧
            Qsum ((λ ol, value a (Food.dv_oil_consume Food.dv) (mth, ol))
                    <$> Food.non_veg_oils) <= inject_Z Food.oil_upper_cap ∧
            p <= 450)
         Food.months.
Proof.
  intros Hfeas.
  split; [apply registeredb_sound; vm_compute; reflexivity|].
  explicit_feasible Food.model.
  forall_cases;
    (eexists; split; [value_of_key|];
     unfold value, Food.veg_oils, Food.non_veg_oils,
       Food.veg_upper_cap, Food.oil_upper_cap;
     cbn [fmap list_fmap Qsum foldr];
     compute_lookups; cbn [default fmap option_fmap option_map];
     unfold id, inject_Z; repeat split; lra).
Qed.

Lemma refining_capacity_respected_witness :
  feasible Food.model food_optimum ∧
  Forall (λ mth, ∃ p,
            has_value food_optimum (Food.dv_prod Food.dv) mth p ∧
            Qsum ((λ ol, value food_optimum (Food.dv_oil_consume Food.dv)
                           (mth, ol))
                    <$> Food.veg_oils) <= inject_Z Food.veg_upper_cap ∧
            Qsum ((λ ol, value food_optimum (Food.dv_oil_consume Food.dv)
                           (mth, ol))
                    <$> Food.non_veg_oils) <= inject_Z Food.oil_upper_cap ∧
            p <= 450)
         Food.months.
Proof.
  assert (Hfood : feasible Food.model food_optimum)
    by (apply feasibleb_sound; vm_compute; reflexivity).
  split; [exact Hfood|].
  exact (proj2 (refining_capacity_respected food_optimum Hfood)).
Defined.

(** X15. In every feasible assignment of the manpower model and for
    every year, at most 200 unskilled workers are retrained to
    semi-skilled, and the semi-skilled workers retrained to skilled are at
    most a quarter of that year's skilled workforce. *)
Theorem training_caps_respected (a : assignment) :
  feasible Manpower.model a →
  Forall (λ t, ∃ x12 x23 w3,
            has_value a (Manpower.dv_train Manpower.dv) (t, "s1", "s2") x12 ∧
            has_value a (Manpower.dv_train Manpower.dv) (t, "s2", "s3") x23 ∧
            has_value a (Manpower.dv_workforce Manpower.dv) (t, "s3") w3 ∧
            x12 <= inject_Z Manpower.max_train_unskilled ∧
            x23 <= Manpower.max_train_semiskilled * w3)
         Manpower.years.
Proof.
  intros Hfeas. explicit_feasible Manpower.model.
  forall_cases;
    (eexists _, _, _;
     split; [value_of_key|]; split; [value_of_key|]; split; [value_of_key|];
     unfold Manpower.max_train_unskilled, Manpower.max_train_semiskilled,
       inject_Z;
     split; lra).
Qed.

Lemma training_caps_respected_witness :
  feasible Manpower.model manpower_optimum ∧
  Forall (λ t, ∃ x12 x23 w3,
            has_value manpower_optimum (Manpower.dv_train Manpower.dv)
              (t, "s1", "s2") x12 ∧
            has_value manpower_optimum (Manpower.dv_train Manpower.dv)
              (t, "s2", "s3") x23 ∧
            has_value manpower_optimum (Manpower.dv_workforce Manpower.dv)
              (t, "s3") w3 ∧
            x12 <= inject_Z Manpower.max_train_unskilled ∧
            x23 <= Manpower.max_train_semiskilled * w3)
         Manpower.years.
Proof.
  assert (Hman : feasible Manpower.model manpower_optimum)
    by (apply feasibleb_sound; vm_compute; reflexivity).
  split; [exact Hman|].
  exact (training_caps_respected manpower_optimum Hman).
Defined.

(** X16. In every feasible assignment of the manpower model, the
    overmanning of a year, summed over the skills, is at most 150; and
    the workforce of a skill in a year exceeds its demand by at most 175
    (150 overmanned workers and half of the 50 part-time workers). *)
Theorem overmanning_bounded (a : assignment) :
  feasible Manpower.model a →
  registered (Manpower.dv_excess Manpower.dv) Manpower.year_skill ∧
  Forall (λ t, Qsum ((λ s, value a (Manpower.dv_excess Manpower.dv) (t, s))
                       <$> Manpower.skills)
               <= inject_Z Manpower.max_overmanning)
         Manpower.years ∧
  Forall (λ i, ∃ d w,
            Manpower.demand !! i = Some d ∧
            has_value a (Manpower.dv_workforce Manpower.dv) i w ∧
            w <= inject_Z d + 175)
         Manpower.year_skill.
Proof.
  intros Hfeas.
  split; [apply registeredb_sound; vm_compute; reflexivity|].
  explicit_feasible Manpower.model. split.
  - forall_cases;
      (unfold value, Manpower.skills, Manpower.max_overmanning;
       cbn [fmap list_fmap Qsum foldr];
       compute_lookups; cbn [default fmap option_fmap option_map];
       unfold id, inject_Z; lra).
  - forall_cases;
      (eexists _, _; split; [vm_compute; reflexivity|];
       split; [value_of_key|]; unfold inject_Z; lra).
Qed.

Lemma overmanning_bounded_witness :
  feasible Manpower.model manpower_optimum ∧
  Forall (λ i, ∃ d w,
            Manpower.demand !! i = Some d ∧
            has_value manpower_optimum (Manpower.dv_workforce Manpower.dv) i w ∧
            w <= inject_Z d + 175)
         Manpower.year_skill.
Proof.
  assert (Hman : feasible Manpower.model manpower_optimum)
    by (apply feasibleb_sound; vm_compute; reflexivity).
  split; [exact Hman|].
  exact (proj2 (proj2 (overmanning_bounded manpower_optimum Hman))).
Defined.

(** ** The best plan of the food model *)



(** ** What the manpower script reports when the solver is sound *)



(** ** Well-formed models *)

Lemma handles_registered_check (m : Solver) :
  bool_decide (handles_registered m) = true → handles_registered m.
Proof. apply bool_decide_eq_true_1. Qed.

(** X19. In each of the three built models, every variable handle that
    occurs in a constraint or in the objective is the handle of a
    variable registered in that model: no constraint refers to a variable
    that was not created. *)
Theorem built_models_use_registered_variables :
  handles_registered Factory.model ∧
  handles_registered Food.model ∧
  handles_registered Manpower.model.
Proof.
  repeat split; apply handles_registered_check; vm_compute; reflexivity.
Qed.

(** X20. In each of the three built models the variable names are
    pairwise distinct. *)
Theorem variable_names_distinct :
  NoDup (v_name <$> s_variables Factory.model) ∧
  NoDup (v_name <$> s_variables Food.model) ∧
  NoDup (v_name <$> s_variables Manpower.model).
Proof.
  repeat split.
  - apply (bool_decide_unpack (NoDup (v_name <$> s_variables Factory.model))).
    vm_compute. exact I.
  - apply (bool_decide_unpack (NoDup (v_name <$> s_variables Food.model))).
    vm_compute. exact I.
  - apply (bool_decide_unpack (NoDup (v_name <$> s_variables Manpower.model))).
    vm_compute. exact I.
Qed.

(** ** The objectives *)

(** Replace the objective of a built model by its expression and the
    index list [l] of the goal by its elements. *)
Ltac explicit_objective model l :=
  let Eo := fresh "Eo" in
  let El := fresh "El" in
  assert (Eo : s_objective model
               = ltac:(let o := eval vm_compute in (s_objective model) in
                       exact o))
    by (vm_compute; reflexivity);
  assert (El : l = ltac:(let l' := eval vm_compute in l in exact l'))
    by (vm_compute; reflexivity);
  unfold objective_of; rewrite Eo, El; clear Eo El;
  unfold value;
  cbn [solution_value fmap list_fmap Qsum foldr];
  compute_lookups;
  cbn [default fmap option_fmap option_map];
  unfold id, inject_Z.

(** X21. Whatever values the variables take, the objective of the factory
    model is the profit of the units sold minus 0.5 per unit kept in
    stock at the end of a month; that of the food model is 150 per ton
    produced minus the cost of the oil bought minus 5 per ton stored; that
    of the manpower model is the number of workers laid off. *)
Theorem objective_values (a : assignment) :
  objective_of Factory.model a
  == Qsum ((λ i, inject_Z (default 0%Z (Factory.profit !! i.2))
                 * value a (Factory.dv_sold Factory.dv) i)
             <$> Factory.month_product)
     - Qsum ((λ i, Factory.inventory_holding_cost
                   * value a (Factory.dv_inventory Factory.dv) i)
               <$> Factory.month_product) ∧
  objective_of Food.model a
  == Qsum ((λ mth, inject_Z Food.price * value a (Food.dv_prod Food.dv) mth)
             <$> Food.months)
     - Qsum ((λ i, inject_Z (default 0%Z (Food.cost !! i))
                   * value a (Food.dv_oil_buy Food.dv) i)
               <$> Food.month_oil)
     - Qsum ((λ i, inject_Z Food.inventory_holding_cost
                   * value a (Food.dv_oil_inventory Food.dv) i)
               <$> Food.month_oil) ∧
  objective_of Manpower.model a
  == Qsum ((λ i, value a (Manpower.dv_layoff Manpower.dv) i)
             <$> Manpower.year_skill).
Proof.
  split; [|split].
  - explicit_objective Factory.model Factory.month_product.
    unfold Factory.inventory_holding_cost. ring.
  - unfold Food.months.
    explicit_objective Food.model Food.month_oil.
    unfold Food.price, Food.inventory_holding_cost. ring.
  - explicit_objective Manpower.model Manpower.year_skill. ring.
Qed.

(** ** Sales against production and stock *)

(** Every variable registered in [d] is declared with bounds inside
    [[lo, hi]], so its value lies there in a feasible assignment. *)
Lemma handle_bounds `{Countable K} m (d : gmap K nat) lo hi a k h :
  forallb (λ kh, match s_variables m !! kh.2 with
                 | Some v => Qle_bool lo (v_lb v) && Qle_bool (v_ub v) hi
                 | None => false
                 end) (map_to_list d) = true →
  feasible m a → d !! k = Some h → lo <= a h ∧ a h <= hi.
Proof.
  intros Hcheck Hfeas Hh. rewrite forallb_forall in Hcheck.
  apply elem_of_map_to_list, list_elem_of_In in Hh.
  specialize (Hcheck _ Hh). cbn [snd] in Hcheck.
  destruct (s_variables m !! h) as [v|] eqn:Hv; [|discriminate].
  apply andb_true_iff in Hcheck as [Hlo Hhi].
  apply Qle_bool_iff in Hlo, Hhi.
  destruct (feasible_within_bounds _ _ _ _ Hfeas Hv) as (Hlb & Hub & _).
  split; lra.
Qed.

Lemma factory_inventory_bounds a k h :
  feasible Factory.model a →
  Factory.dv_inventory Factory.dv !! k = Some h →
  0 <= a h ∧ a h <= 100.
Proof. apply handle_bounds. vm_compute. reflexivity. Qed.

Lemma factory_initial_balance_inv dv prd c :
  Factory.initial_balance dv prd = Some c →
  ∃ m s i,
    Factory.dv_manufacture dv !! ("Jan", prd) = Some m ∧
    Factory.dv_sold dv !! ("Jan", prd) = Some s ∧
    Factory.dv_inventory dv !! ("Jan", prd) = Some i ∧
    c = Constraint (EVar m) EQ (EAdd (EVar s) (EVar i)).
Proof.
  unfold Factory.initial_balance.
  destruct (Factory.dv_manufacture dv !! ("Jan", prd)) as [m|]; [|discriminate].
  destruct (Factory.dv_sold dv !! ("Jan", prd)) as [s|]; [|discriminate].
  destruct (Factory.dv_inventory dv !! ("Jan", prd)) as [i|]; [|discriminate].
  intros [= <-]. exists m, s, i. auto.
Qed.

Lemma factory_initial_balance_registered :
  all_registered (Factory.initial_balance Factory.dv)
    (s_constraints Factory.model) Factory.products.
Proof. apply all_registeredb_sound. vm_compute. reflexivity. Qed.

(** X22. In every feasible assignment of the factory model, the sales of
    a product in January are at most its January production, and in a
    later month at most that month's production plus 100, the largest
    stock that can be carried over. *)
Theorem sales_limited_by_production (a : assignment) :
  feasible Factory.model a →
  Forall (λ prd, ∃ s m,
            has_value a (Factory.dv_sold Factory.dv) ("Jan", prd) s ∧
            has_value a (Factory.dv_manufacture Factory.dv) ("Jan", prd) m ∧
            s <= m)
         Factory.products ∧
  Forall (λ '(mth, prd), ∃ s m,
            has_value a (Factory.dv_sold Factory.dv) (mth, prd) s ∧
            has_value a (Factory.dv_manufacture Factory.dv) (mth, prd) m ∧
            s <= m + inject_Z Factory.maximum_inventory)
         (product (drop 1 Factory.months) Factory.products).
Proof.
  intros Hfeas. split.
  - eapply Forall_impl; [apply factory_initial_balance_registered|].
    intros prd (c & Hc & Hin).
    apply factory_initial_balance_inv in Hc.
    destruct Hc as (m & s & i & Hm & Hs & Hi & ->).
    exists (a s), (a m).
    split; [exact (has_value_intro _ _ _ _ Hs)|].
    split; [exact (has_value_intro _ _ _ _ Hm)|].
    pose proof (feasible_holds _ _ _ Hfeas Hin) as Heq.
    unfold holds in Heq. cbn [c_rel c_lhs c_rhs solution_value] in Heq.
    destruct (factory_inventory_bounds a _ _ Hfeas Hi) as [Hi0 _]. lra.
  - apply Forall_forall. intros [mth prd] Hi.
    pose proof factory_balance_registered as Hreg.
    unfold all_registered in Hreg. rewrite Forall_forall in Hreg.
    destruct (Hreg _ Hi) as (c & Hc & Hin). cbn [fst snd] in Hc.
    apply factory_balance_inv in Hc.
    destruct Hc as (k & prev & ip & m & s & i & _ & _ & Hip & Hm & Hs
                    & Hinv & ->).
    exists (a s), (a m).
    split; [exact (has_value_intro _ _ _ _ Hs)|].
    split; [exact (has_value_intro _ _ _ _ Hm)|].
    pose proof (feasible_holds _ _ _ Hfeas Hin) as Heq.
    unfold holds in Heq. cbn [c_rel c_lhs c_rhs solution_value] in Heq.
    destruct (factory_inventory_bounds a _ _ Hfeas Hip) as [_ Hip100].
    destruct (factory_inventory_bounds a _ _ Hfeas Hinv) as [Hi0 _].
    unfold Factory.maximum_inventory, inject_Z. lra.
Qed.

Lemma sales_limited_by_production_witness :
  feasible Factory.model factory_point ∧
  Forall (λ prd, ∃ s m,
            has_value factory_point (Factory.dv_sold Factory.dv)
              ("Jan", prd) s ∧
            has_value factory_point (Factory.dv_manufacture Factory.dv)
              ("Jan", prd) m ∧
            s <= m)
         Factory.products.
Proof.
  assert (Hfac : feasible Factory.model factory_point)
    by (apply feasibleb_sound; vm_compute; reflexivity).
  split; [exact Hfac|].
  exact (proj1 (sales_limited_by_production factory_point Hfac)).
Defined.
